(** * The WT9011DCL orientation pipeline: packet decoder and shared sensor state

    A shallow embedding of the data path of the cube viewer:
    [decode_witmotion] (BLE notification bytes to Euler angles), the
    [SensorData] object of [arena.py] (raw values, exponential filter,
    calibration offset, unread flag), the bounded queue of
    [arena_alter_clinkz.py] and the moving-average buffers of
    [Qwen_python_20260212_ot0jub0wu.py].

    Python floats are kept abstract behind the interface [PyFloat], which has
    two instances: IEEE 754 binary64 with round-to-nearest-even (what CPython
    computes, taken from [SpecFloat]) and the rationals (the same expressions
    without rounding).  Statements that only move values around hold for every
    instance; numerical statements name the instance they are about. *)

From Stdlib Require Import ZArith QArith Qpower Qround List Bool Lia Lqa.
From Stdlib Require Import Strings.Byte Floats.SpecFloat.
Import ListNotations.

Set Implicit Arguments.
#[local] Close Scope Q_scope.
#[local] Open Scope nat_scope.

(** ** Python floats *)

Class PyFloat (F : Type) := {
  float_of_int : Z -> F;      (* int operand promoted to float, or an integral literal such as [180.0] *)
  fadd : F -> F -> F;
  fsub : F -> F -> F;
  fmul : F -> F -> F;
  fdiv : F -> F -> F          (* only ever applied to a non-zero divisor *)
}.

(** A decimal literal [m/d] such as [0.3]: the parser yields the float nearest
    to the decimal value, which is what one correctly rounded division of the
    two (exactly representable) integers gives. *)
Definition float_lit {F} `{PyFloat F} (m d : Z) : F :=
  fdiv (float_of_int m) (float_of_int d).

Module B64.
Definition prec : Z := 53.
Definition emax : Z := 1024.
Definition of_Z (z : Z) : spec_float := binary_normalize prec emax z 0 false.
Definition add := SFadd prec emax.
Definition sub := SFsub prec emax.
Definition mul := SFmul prec emax.
Definition div := SFdiv prec emax.
Definition leb := SFleb.
Definition ltb := SFltb.

(** The exact value of a finite float; [None] for infinities and NaN. *)
Definition to_Q (x : spec_float) : option Q :=
  match x with
  | S754_zero _ => Some 0%Q
  | S754_finite s m e =>
      let v := (inject_Z (Z.pos m) * Qpower 2 e)%Q in
      Some (if s then Qopp v else v)
  | S754_infinity _ | S754_nan => None
  end.
End B64.

#[export] Instance PyFloat_b64 : PyFloat spec_float := {
  float_of_int := B64.of_Z;
  fadd := B64.add;
  fsub := B64.sub;
  fmul := B64.mul;
  fdiv := B64.div
}.

#[export] Instance PyFloat_Q : PyFloat Q := {
  float_of_int := inject_Z;
  fadd := Qplus;
  fsub := Qminus;
  fmul := Qmult;
  fdiv := Qdiv
}.

(** ** Exceptions *)

Inductive exn := IndexError | StructError | ZeroDivisionError | QueueFull | QueueEmpty.

Inductive result (A : Type) : Type :=
| Ok (a : A)
| Raise (e : exn).
Arguments Ok {A} a.
Arguments Raise {A} e.

Definition bind {A B} (m : result A) (k : A -> result B) : result B :=
  match m with
  | Ok a => k a
  | Raise e => Raise e
  end.

Notation "x <- m ;; k" := (bind m (fun x => k))
  (at level 61, m at next level, right associativity).

(** ** Byte buffers *)

Definition byte_val (b : byte) : Z := Z.of_N (Byte.to_N b).

(** [data[i]] for an index [i >= 0]. *)
Definition getitem (data : list byte) (i : nat) : result Z :=
  match nth_error data i with
  | Some b => Ok (byte_val b)
  | None => Raise IndexError
  end.

(** [data[a:b]] for [0 <= a <= b]: slicing clamps at the end of the buffer. *)
Definition slice (data : list byte) (a b : nat) : list byte :=
  firstn (b - a) (skipn a data).

Definition to_signed16 (u : Z) : Z :=
  if (u <? 32768)%Z then u else (u - 65536)%Z.

Definition int16_le (lo hi : byte) : Z :=
  to_signed16 (byte_val lo + 256 * byte_val hi).

(** [struct.unpack('<h', bs)[0]]: exactly two bytes are required. *)
Definition unpack_h (bs : list byte) : result Z :=
  match bs with
  | [lo; hi] => Ok (int16_le lo hi)
  | _ => Raise StructError
  end.

(** ** The decoder ([arena.py], lines 95-107) *)

Section Decoder.
Context {F : Type} `{PyFloat F}.

Definition angles : Type := (F * F * F)%type.

(** [v / 32768.0 * 180.0] *)
Definition to_degrees (v : Z) : F :=
  fmul (fdiv (float_of_int v) (float_of_int 32768)) (float_of_int 180).

(** [data[i] == 0x55 and data[i+1] == 0x61], with the short circuit. *)
Definition header_at (data : list byte) (i : nat) : result bool :=
  b0 <- getitem data i ;;
  if (b0 =? 0x55)%Z then
    b1 <- getitem data (i + 1) ;;
    Ok (b1 =? 0x61)%Z
  else Ok false.

Definition unpack_frame (data : list byte) (i : nat) : result angles :=
  r <- unpack_h (slice data (i + 2) (i + 4)) ;;
  p <- unpack_h (slice data (i + 4) (i + 6)) ;;
  y <- unpack_h (slice data (i + 6) (i + 8)) ;;
  Ok (to_degrees r, to_degrees p, to_degrees y).

(** The body of the [for] loop over the remaining indices [idx]. *)
Fixpoint scan (data : list byte) (idx : list nat) : result (option angles) :=
  match idx with
  | [] => Ok None
  | i :: rest =>
      h <- header_at data i ;;
      if h then (a <- unpack_frame data i ;; Ok (Some a))
      else scan data rest
  end.

(** What the [try] block does: [for i in range(len(data) - 7)]; the range is
    empty when [len(data) <= 7]. *)
Definition decode_body (data : list byte) : result (option angles) :=
  scan data (seq 0 (length data - 7)).

(** [except Exception: pass], then [return None]. *)
Definition decode_witmotion (data : list byte) : option angles :=
  match decode_body data with
  | Ok v => v
  | Raise _ => None
  end.

(** *** The frame format, as the protocol description words it *)

Definition frame_at (data : list byte) (i : nat) : Prop :=
  nth_error data i = Some x55 /\ nth_error data (i + 1) = Some x61 /\
  i + 8 <= length data.

Definition is_frame_at (data : list byte) (i : nat) : bool :=
  match nth_error data i, nth_error data (i + 1) with
  | Some b0, Some b1 =>
      Byte.eqb b0 x55 && Byte.eqb b1 x61 && (i + 8 <=? length data)
  | _, _ => false
  end.

(** The first frame position, searching from offset 0 upward. *)
Definition first_frame (data : list byte) : option nat :=
  find (is_frame_at data) (seq 0 (length data)).

(** The three little-endian signed fields that follow the header at [i]. *)
Definition frame_reading (data : list byte) (i : nat) : angles :=
  let b k := nth (i + k) data x00 in
  (to_degrees (int16_le (b 2) (b 3)),
   to_degrees (int16_le (b 4) (b 5)),
   to_degrees (int16_le (b 6) (b 7))).

Definition decode_spec (data : list byte) : option angles :=
  option_map (frame_reading data) (first_frame data).
End Decoder.

(** ** The shared sensor state ([arena.py], lines 32-92 and 138-141) *)

Section Sensor.
Context {F : Type} `{PyFloat F}.

(** [SMOOTHING_ALPHA = 0.3] *)
Definition SMOOTHING_ALPHA : F := float_lit 3 10.

Record SensorData : Type := mkSensorData {
  raw_roll : F; raw_pitch : F; raw_yaw : F;
  roll : F; pitch : F; yaw : F;
  offset_r : F; offset_p : F; offset_y : F;
  new_data : bool
}.

(** [SensorData.__init__] *)
Definition init : SensorData :=
  let z := float_of_int 0 in
  mkSensorData z z z z z z z z z false.

(** [SensorData.update]: what the producer calls with a decoded reading. *)
Definition update (s : SensorData) (r p y : F) : SensorData :=
  mkSensorData r p y
    (roll s) (pitch s) (yaw s)
    (offset_r s) (offset_p s) (offset_y s)
    true.

(** One axis of the low-pass filter:
    [self.roll * (1 - SMOOTHING_ALPHA) + self.raw_roll * SMOOTHING_ALPHA]. *)
Definition ema (old raw : F) : F :=
  fadd (fmul old (fsub (float_of_int 1) SMOOTHING_ALPHA)) (fmul raw SMOOTHING_ALPHA).

(** [SensorData.get_smoothed_angles]: the new state and the returned triple. *)
Definition get_smoothed_angles (s : SensorData) : SensorData * angles (F:=F) :=
  let roll' := ema (roll s) (raw_roll s) in
  let pitch' := ema (pitch s) (raw_pitch s) in
  let yaw' := ema (yaw s) (raw_yaw s) in
  let r := fsub roll' (offset_r s) in
  let p := fsub pitch' (offset_p s) in
  let y := fsub yaw' (offset_y s) in
  (mkSensorData (raw_roll s) (raw_pitch s) (raw_yaw s)
     roll' pitch' yaw'
     (offset_r s) (offset_p s) (offset_y s)
     false,
   (r, p, y)).

(** [SensorData.calibrate] (the two [print] calls have no effect on the state). *)
Definition calibrate (s : SensorData) : SensorData :=
  mkSensorData (raw_roll s) (raw_pitch s) (raw_yaw s)
    (raw_roll s) (raw_pitch s) (raw_yaw s)
    (raw_roll s) (raw_pitch s) (raw_yaw s)
    (new_data s).

(** [run_bluetooth.callback]: decode, and [update] when a reading came out
    (a non-empty tuple is truthy). *)
Definition callback (s : SensorData) (data : list byte) : SensorData :=
  match decode_witmotion data with
  | Some (r, p, y) => update s r p y
  | None => s
  end.

(** The consumer's read, [update_view] lines 139-141: the guard on
    [new_data] and the call it protects.  [None] stands for a tick on which
    nothing is read and nothing is rendered. *)
Definition sample (s : SensorData) : SensorData * option (angles (F:=F)) :=
  if new_data s then
    let '(s', a) := get_smoothed_angles s in (s', Some a)
  else (s, None).

(** One round: [update(r, p, y)] followed by a read; and [n] rounds. *)
Definition feed_once (r p y : F) (s : SensorData) : SensorData :=
  fst (sample (update s r p y)).

Fixpoint feed (n : nat) (r p y : F) (s : SensorData) : SensorData :=
  match n with
  | O => s
  | S k => feed_once r p y (feed k r p y s)
  end.

End Sensor.
Arguments SensorData F : clear implicits.

(** ** The unfiltered variant ([witmotion_vtk_fixed.py], lines 21-46, 75-79, 203-223) *)

Module Fixed.
Section Sensor.
Context {F : Type} `{PyFloat F}.

Record SensorData : Type := mkSensorData {
  roll : F; pitch : F; yaw : F;
  offset_r : F; offset_p : F; offset_y : F;
  new_data : bool
}.

Definition init : SensorData :=
  let z := float_of_int 0 in mkSensorData z z z z z z false.

Definition calibrate (s : SensorData) : SensorData :=
  mkSensorData (roll s) (pitch s) (yaw s) (roll s) (pitch s) (yaw s) (new_data s).

Definition get_calibrated_angles (s : SensorData) : angles (F:=F) :=
  (fsub (roll s) (offset_r s), fsub (pitch s) (offset_p s), fsub (yaw s) (offset_y s)).

(** The assignment under the lock in [run_bluetooth.callback]. *)
Definition update (s : SensorData) (r p y : F) : SensorData :=
  mkSensorData r p y (offset_r s) (offset_p s) (offset_y s) true.

Definition update_view (s : SensorData) : SensorData * option (angles (F:=F)) :=
  if new_data s then
    (mkSensorData (roll s) (pitch s) (yaw s) (offset_r s) (offset_p s) (offset_y s) false,
     Some (get_calibrated_angles s))
  else (s, None).
End Sensor.
Arguments SensorData F : clear implicits.
End Fixed.

(** ** The first version ([ai_studio_code_version1.py], lines 20-50) *)

Module V1.
Section Sensor.
Context {F : Type} `{PyFloat F}.

Record SensorData : Type := mkSensorData {
  roll : F; pitch : F; yaw : F; new_data : bool
}.

(** Here the decoder looks at offset 0 only and wants eleven bytes; there is
    no [try]. *)
Definition decode_witmotion (data : list byte) : result (option (angles (F:=F))) :=
  if 11 <=? length data then
    b0 <- getitem data 0 ;;
    if (b0 =? 0x55)%Z then
      b1 <- getitem data 1 ;;
      if (b1 =? 0x61)%Z then
        r <- unpack_h (slice data 2 4) ;;
        p <- unpack_h (slice data 4 6) ;;
        y <- unpack_h (slice data 6 8) ;;
        Ok (Some (to_degrees r, to_degrees p, to_degrees y))
      else Ok None
    else Ok None
  else Ok None.

(** The scan lives in the callback, [for i in range(len(data) - 10)], and
    does not stop at the first frame. *)
Fixpoint callback_loop (data : list byte) (idx : list nat) (s : SensorData)
  : result SensorData :=
  match idx with
  | [] => Ok s
  | i :: rest =>
      h <- header_at data i ;;
      if h then
        a <- decode_witmotion (slice data i (i + 11)) ;;
        match a with
        | Some (r, p, y) => callback_loop data rest (mkSensorData r p y true)
        | None => callback_loop data rest s
        end
      else callback_loop data rest s
  end.

Definition callback (s : SensorData) (data : list byte) : result SensorData :=
  callback_loop data (seq 0 (length data - 10)) s.
End Sensor.
Arguments SensorData F : clear implicits.
End V1.

(** ** The bounded queue ([arena_alter_clinkz.py], lines 22-36, 56-63, 76-80, 100-112) *)

Module Clinkz.
Section Manager.
Context {F : Type} `{PyFloat F}.

(** [Queue(maxsize=3)] *)
Definition maxsize : nat := 3.

Record IMUManager : Type := mkIMUManager {
  data_queue : list (angles (F:=F));      (* oldest entry first *)
  offsets : angles (F:=F)
}.

Definition init : IMUManager :=
  let z := float_of_int 0 in mkIMUManager [] (z, z, z).

(** [Queue.full]: [0 < maxsize <= qsize]. *)
Definition full (q : list (angles (F:=F))) : bool :=
  (0 <? maxsize) && (maxsize <=? length q).

(** [Queue.get_nowait]: the oldest entry, or [Empty] at once. *)
Definition get_nowait (q : list (angles (F:=F)))
  : result (angles (F:=F) * list (angles (F:=F))) :=
  match q with
  | [] => Raise QueueEmpty
  | a :: q' => Ok (a, q')
  end.

(** [Queue.put_nowait]: append, or [Full] at once. *)
Definition put_nowait (q : list (angles (F:=F))) (a : angles (F:=F))
  : result (list (angles (F:=F))) :=
  if (0 <? maxsize) && (maxsize <=? length q) then Raise QueueFull
  else Ok (q ++ [a]).

(** The body of [if angles:] in [run_bluetooth.callback]. *)
Definition enqueue (q : list (angles (F:=F))) (a : angles (F:=F))
  : result (list (angles (F:=F))) :=
  q1 <- (if full q then (xq <- get_nowait q ;; Ok (snd xq)) else Ok q) ;;
  put_nowait q1 a.

Definition callback (m : IMUManager) (data : list byte) : result IMUManager :=
  match decode_witmotion data with
  | Some a => q <- enqueue (data_queue m) a ;; Ok (mkIMUManager q (offsets m))
  | None => Ok m
  end.

(** [update_view]: one reading is taken if there is one; [except Empty: pass]. *)
Definition update_view (m : IMUManager) : IMUManager * option (angles (F:=F)) :=
  match get_nowait (data_queue m) with
  | Ok ((r, p, y), q') =>
      let '(o_r, o_p, o_y) := offsets m in
      (mkIMUManager q' (offsets m), Some (fsub r o_r, fsub p o_p, fsub y o_y))
  | Raise _ => (m, None)
  end.

(** [key_press] with key ['c'] and with key ['r']. *)
Definition key_c (m : IMUManager) : IMUManager :=
  match get_nowait (data_queue m) with
  | Ok (a, q') => mkIMUManager q' a
  | Raise _ => m
  end.

Definition key_r (m : IMUManager) : IMUManager :=
  let z := float_of_int 0 in mkIMUManager (data_queue m) (z, z, z).

(** Whole callbacks, in the order in which they happen to run. *)
Inductive event : Type :=
| Notify (data : list byte)
| Tick
| KeyC
| KeyR.

Definition step (m : IMUManager) (e : event) : result IMUManager :=
  match e with
  | Notify data => callback m data
  | Tick => Ok (fst (update_view m))
  | KeyC => Ok (key_c m)
  | KeyR => Ok (key_r m)
  end.

Fixpoint run (m : IMUManager) (es : list event) : result IMUManager :=
  match es with
  | [] => Ok m
  | e :: es' => m' <- step m e ;; run m' es'
  end.
End Manager.
Arguments IMUManager F : clear implicits.
End Clinkz.

(** ** The moving average ([Qwen_python_20260212_ot0jub0wu.py], lines 21-52) *)

Module Qwen.
Section Sensor.
Context {F : Type} `{PyFloat F}.

(** The three deques share [maxlen = smoothing_window]. *)
Record SensorData : Type := mkSensorData {
  roll : F; pitch : F; yaw : F;
  offset_r : F; offset_p : F; offset_y : F;
  new_data : bool;
  smoothing_window : nat;
  roll_buffer : list F; pitch_buffer : list F; yaw_buffer : list F
}.

(** [SensorData.__init__]: [deque([0.0] * smoothing_window, maxlen=smoothing_window)]. *)
Definition init (smoothing_window : nat) : SensorData :=
  let z := float_of_int 0 in
  let zeros := repeat z smoothing_window in
  mkSensorData z z z z z z false smoothing_window zeros zeros zeros.

(** [shared_data = SensorData(smoothing_window=5)] *)
Definition shared_data : SensorData := init 5.

(** [deque.append] under [maxlen]: the leftmost entry leaves when the bound
    is exceeded. *)
Definition deque_append (maxlen : nat) (d : list F) (x : F) : list F :=
  let d' := d ++ [x] in
  if maxlen <? length d' then tl d' else d'.

(** [sum(d)]: left to right, starting from the integer 0. *)
Definition py_sum (d : list F) : F := fold_left fadd d (float_of_int 0).

(** [sum(d) / len(d)] *)
Definition mean (d : list F) : result F :=
  if length d =? 0 then Raise ZeroDivisionError
  else Ok (fdiv (py_sum d) (float_of_int (Z.of_nat (length d)))).

Definition add_raw_angles (s : SensorData) (r p y : F) : result SensorData :=
  let rb := deque_append (smoothing_window s) (roll_buffer s) r in
  let pb := deque_append (smoothing_window s) (pitch_buffer s) p in
  let yb := deque_append (smoothing_window s) (yaw_buffer s) y in
  roll' <- mean rb ;;
  pitch' <- mean pb ;;
  yaw' <- mean yb ;;
  Ok (mkSensorData roll' pitch' yaw'
        (offset_r s) (offset_p s) (offset_y s)
        true (smoothing_window s) rb pb yb).

Definition calibrate (s : SensorData) : SensorData :=
  mkSensorData (roll s) (pitch s) (yaw s) (roll s) (pitch s) (yaw s)
    (new_data s) (smoothing_window s)
    (roll_buffer s) (pitch_buffer s) (yaw_buffer s).

(** Readings [(r, p, y)] added one after the other. *)
Fixpoint add_all (s : SensorData) (xs : list (angles (F:=F))) : result SensorData :=
  match xs with
  | [] => Ok s
  | (r, p, y) :: xs' => s' <- add_raw_angles s r p y ;; add_all s' xs'
  end.
End Sensor.
Arguments SensorData F : clear implicits.
End Qwen.

(** ** Auxiliary definitions for the statements *)

(** The last [n] entries of a list. *)
Definition lastn {A} (n : nat) (l : list A) : list A := skipn (length l - n) l.

(** The three axes of a list of readings. *)
Definition rolls {F} (xs : list (F * F * F)) : list F := map (fun a => fst (fst a)) xs.
Definition pitches {F} (xs : list (F * F * F)) : list F := map (fun a => snd (fst a)) xs.
Definition yaws {F} (xs : list (F * F * F)) : list F := map (fun a => snd a) xs.

(** The window of 5: what [shared_data] starts with and every call keeps. *)
Definition window5 {F} (s : Qwen.SensorData F) : Prop :=
  Qwen.smoothing_window s = 5 /\
  length (Qwen.roll_buffer s) = 5 /\
  length (Qwen.pitch_buffer s) = 5 /\
  length (Qwen.yaw_buffer s) = 5.

(** The three values are the means of the three buffers. *)
Definition means_of_buffers {F} `{PyFloat F} (s : Qwen.SensorData F) : Prop :=
  Qwen.roll s = fdiv (Qwen.py_sum (Qwen.roll_buffer s)) (float_of_int 5) /\
  Qwen.pitch s = fdiv (Qwen.py_sum (Qwen.pitch_buffer s)) (float_of_int 5) /\
  Qwen.yaw s = fdiv (Qwen.py_sum (Qwen.yaw_buffer s)) (float_of_int 5).

(** Signed zeros of binary64. *)
Definition is_zero (x : spec_float) : bool :=
  match x with
  | S754_zero _ => true
  | _ => false
  end.

(** Componentwise equality of rational triples. *)
Definition angles_Qeq (a b : Q * Q * Q) : Prop :=
  let '(a1, a2, a3) := a in
  let '(b1, b2, b3) := b in
  (a1 == b1 /\ a2 == b2 /\ a3 == b3)%Q.

(** The test vector of the protocol description: roll [0x4000], pitch 0,
    yaw [0xC000]. *)
Definition known_frame : list byte := [x55; x61; x00; x40; x00; x00; x00; xc0].

(** No two adjacent bytes of [g] spell the header. *)
Definition no_header (g : list byte) : Prop :=
  forall i, ~ (nth_error g i = Some x55 /\ nth_error g (i + 1) = Some x61).

(** The signed 16-bit range. *)
Definition int16 (v : Z) : Prop := (-32768 <= v <= 32767)%Z.

(** A positive integer of at most 53 bits, shifted left until it has exactly
    53 bits: the mantissa of its binary64 representation. *)
Definition norm53 (p : positive) : positive :=
  Pos.shiftl_nat p (Z.to_nat (53 - Z.pos (Pos.size p))).

(** The mantissas of [32768.0] and of [180.0]. *)
Definition two52 : positive := 4503599627370496.
Definition c180 : positive := 6333186975989760.


(** ** Callers and consumers beyond the core *)

(** *** Events on the shared state ([arena.py], lines 109-113, 138-141, 233-236) *)

Section SensorEvents.
Context {F : Type} `{PyFloat F}.

(** A notification with its bytes, a timer tick, the key ['c']. *)
Inductive sensor_event : Type :=
| Notification (data : list byte)
| TimerTick
| KeyPressC.

Definition sensor_step (s : SensorData F) (e : sensor_event) : SensorData F :=
  match e with
  | Notification data => callback s data
  | TimerTick => fst (sample s)
  | KeyPressC => calibrate s
  end.

Definition sensor_run (s : SensorData F) (es : list sensor_event) : SensorData F :=
  fold_left sensor_step es s.

(** [AXIS_CONFIG] *)
Record AxisConfig : Type := mkAxisConfig {
  roll_sign : F; pitch_sign : F; yaw_sign : F; swap_xy : bool
}.

Definition AXIS_CONFIG : AxisConfig :=
  mkAxisConfig (float_of_int 1) (float_of_int 1) (float_of_int (-1)) false.

(** [update_view], lines 139-160: the read, the axis configuration, and
    the three angles handed to [RotateZ], [RotateX], [RotateY], in this
    order. *)
Definition update_view (s : SensorData F) : SensorData F * option (angles (F:=F)) :=
  match sample s with
  | (s', Some (r, p, y)) =>
      let '(r, p) := if swap_xy AXIS_CONFIG then (p, r) else (r, p) in
      let r := fmul r (roll_sign AXIS_CONFIG) in
      let p := fmul p (pitch_sign AXIS_CONFIG) in
      let y := fmul y (yaw_sign AXIS_CONFIG) in
      (s', Some (y, p, r))
  | (s', None) => (s', None)
  end.
End SensorEvents.
Arguments sensor_event : clear implicits.
Arguments AxisConfig F : clear implicits.

(** *** Comparison and negation of floats *)

Class PyFloatCmp (F : Type) := {
  fneg : F -> F;              (* unary minus *)
  flt : F -> F -> bool        (* [a < b]; [a > b] is [flt b a] *)
}.

#[export] Instance PyFloatCmp_b64 : PyFloatCmp spec_float := {
  fneg := SFopp;
  flt := SFltb
}.

#[export] Instance PyFloatCmp_Q : PyFloatCmp Q := {
  fneg := Qopp;
  flt := fun a b => negb (Qle_bool b a)
}.

(** *** The consumer of the moving-average variant
        ([Qwen_python_20260212_ot0jub0wu.py], lines 99-125) *)

Module QwenView.
Section View.
Context {F : Type} `{PyFloat F} `{PyFloatCmp F}.

(** [min(a, b)] and [max(a, b)] of two arguments: the first argument stays
    unless the second is strictly smaller (larger). *)
Definition py_min (a b : F) : F := if flt b a then b else a.
Definition py_max (a b : F) : F := if flt a b then b else a.

(** [max(min(x, max_angle), -max_angle)] with [max_angle = 180.0] *)
Definition clamp (x : F) : F :=
  let max_angle := float_of_int 180 in
  py_max (py_min x max_angle) (fneg max_angle).

(** [update_view] up to the angles [(r, p, y)] that go into the transform. *)
Definition update_view (s : Qwen.SensorData F)
  : Qwen.SensorData F * option (angles (F:=F)) :=
  if Qwen.new_data s then
    let r := clamp (fsub (Qwen.roll s) (Qwen.offset_r s)) in
    let p := clamp (fsub (Qwen.pitch s) (Qwen.offset_p s)) in
    let y := clamp (fsub (Qwen.yaw s) (Qwen.offset_y s)) in
    (Qwen.mkSensorData (Qwen.roll s) (Qwen.pitch s) (Qwen.yaw s)
       (Qwen.offset_r s) (Qwen.offset_p s) (Qwen.offset_y s)
       false (Qwen.smoothing_window s)
       (Qwen.roll_buffer s) (Qwen.pitch_buffer s) (Qwen.yaw_buffer s),
     Some (r, p, y))
  else (s, None).
End View.
End QwenView.

(** *** The consumer of the first version ([ai_studio_code_version1.py], lines 68-76) *)

(** [update_orientation]: the triple given to [SetOrientation], which is
    (pitch, yaw, roll), and the flag cleared. *)
Definition V1_update_orientation {F} (s : V1.SensorData F)
  : V1.SensorData F * option (F * F * F) :=
  if V1.new_data s then
    (V1.mkSensorData (V1.roll s) (V1.pitch s) (V1.yaw s) false,
     Some (V1.pitch s, V1.yaw s, V1.roll s))
  else (s, None).

(** *** Draining the bounded queue *)

(** [n] timer ticks of [arena_alter_clinkz.py], with what each one rendered. *)
Fixpoint clinkz_ticks {F} `{PyFloat F} (n : nat) (m : Clinkz.IMUManager F)
  : Clinkz.IMUManager F * list (option (angles (F:=F))) :=
  match n with
  | O => (m, [])
  | S k =>
      let '(m1, a) := Clinkz.update_view m in
      let '(m2, rest) := clinkz_ticks k m1 in
      (m2, a :: rest)
  end.

(** *** The callback of the calibrating variants
        ([witmotion_vtk_fixed.py], lines 74-79; [ai_studio_code_version2.py],
        lines 59-63) *)

Definition Fixed_callback {F} `{PyFloat F} (s : Fixed.SensorData F) (data : list byte)
  : Fixed.SensorData F :=
  match decode_witmotion data with
  | Some (r, p, y) => Fixed.update s r p y
  | None => s
  end.

(** *** The callback of the moving-average variant
        ([Qwen_python_20260212_ot0jub0wu.py], lines 78-80) *)

Definition Qwen_callback {F} `{PyFloat F} (s : Qwen.SensorData F) (data : list byte)
  : result (Qwen.SensorData F) :=
  match decode_witmotion data with
  | Some (r, p, y) => Qwen.add_raw_angles s r p y
  | None => Ok s
  end.

(** Several notifications in a row. *)
Fixpoint Qwen_notifications {F} `{PyFloat F} (s : Qwen.SensorData F)
  (ds : list (list byte)) : result (Qwen.SensorData F) :=
  match ds with
  | [] => Ok s
  | d :: ds' => s' <- Qwen_callback s d ;; Qwen_notifications s' ds'
  end.

(** *** The connection loop ([arena_alter_claude_opus.py], lines 127-164) *)

Module Retry.

(** [max_retries = 3] *)
Definition max_retries : nat := 3.

(** How one pass through the body of [while retry_count < max_retries]
    ends: with an exception, raised while connecting or while connected, or
    with the inner loop left without one, on stale data or on a closed
    link. *)
Inductive pass : Type :=
| ConnectFailed
| FailedConnected
| StaleData
| LinkClosed.

Definition raised (a : pass) : bool :=
  match a with
  | ConnectFailed | FailedConnected => true
  | StaleData | LinkClosed => false
  end.

(** [retry_count], [shared_data.connected], and the number of
    [asyncio.sleep(2)] pauses made so far. *)
Record state : Type := mkState {
  retry_count : nat;
  connected : bool;
  pauses : nat
}.

(** [retry_count = 0]; [connected] is [False] from [SensorData.__init__]. *)
Definition init : state := mkState 0 false 0.

(** One pass: the [except] branch counts and pauses unless the limit is
    reached; the [finally] branch lowers [connected] in every case. *)
Definition one_pass (st : state) (a : pass) : state :=
  if raised a then
    let rc := S (retry_count st) in
    mkState rc false (if rc <? max_retries then S (pauses st) else pauses st)
  else mkState (retry_count st) false (pauses st).

(** [run_bluetooth] against the outcomes of the passes still to come; the
    flag tells whether the loop was left, so that the function returned. *)
Fixpoint run_bluetooth (st : state) (outcomes : list pass) : state * bool :=
  match outcomes with
  | [] => (st, negb (retry_count st <? max_retries))
  | a :: rest =>
      if retry_count st <? max_retries then run_bluetooth (one_pass st a) rest
      else (st, true)
  end.

Definition failures (outcomes : list pass) : nat :=
  length (filter raised outcomes).
End Retry.

(** *** Statement helpers *)

(** The readings of those notifications that decode, in arrival order. *)
Definition readings {F} `{PyFloat F} (ds : list (list byte)) : list (angles (F:=F)) :=
  flat_map (fun d => match decode_witmotion d with
                     | Some a => [a]
                     | None => []
                     end) ds.

(** A reading minus the offsets, as [update_view] of the queue variant
    computes it. *)
Definition minus_offsets {F} `{PyFloat F} (o a : angles (F:=F)) : angles (F:=F) :=
  let '(o_r, o_p, o_y) := o in
  let '(r, p, y) := a in
  (fsub r o_r, fsub p o_p, fsub y o_y).

(** A binary64 value that stands exactly for the rational [q]. *)
Definition b64_is (x : spec_float) (q : Q) : Prop :=
  exists q', B64.to_Q x = Some q' /\ (q' == q)%Q.

(** Finite binary64 values, zeros included. *)
Definition b64_finite (x : spec_float) : bool :=
  match x with
  | S754_zero _ | S754_finite _ _ _ => true
  | _ => false
  end.

(** The reading of the last notification that decodes, if any. *)
Definition last_reading {F} `{PyFloat F} (ds : list (list byte))
  : option (angles (F:=F)) :=
  fold_left (fun acc d => match decode_witmotion d with
                          | Some a => Some a
                          | None => acc
                          end) ds None.

(** The offsets of a state. *)
Definition offsets_of {F} (s : SensorData F) : F * F * F :=
  (offset_r s, offset_p s, offset_y s).

(** The last position holding a header with eleven bytes from it on. *)
Definition is_frame11_at (data : list byte) (i : nat) : bool :=
  match nth_error data i, nth_error data (i + 1) with
  | Some b0, Some b1 =>
      Byte.eqb b0 x55 && Byte.eqb b1 x61 && (i + 11 <=? length data)
  | _, _ => false
  end.

Definition last_frame11 (data : list byte) : option nat :=
  find (is_frame11_at data) (rev (seq 0 (length data - 10))).

(** The state of the first version after it has stored a reading. *)
Definition V1_stored {F} (a : F * F * F) : V1.SensorData F :=
  let '(r, p, y) := a in V1.mkSensorData r p y true.

(** A rational triple inside [[lo, hi]]. *)
Definition within (lo hi : Q) (a : Q * Q * Q) : Prop :=
  let '(r, p, y) := a in
  (lo <= r <= hi /\ lo <= p <= hi /\ lo <= y <= hi)%Q.

(** Raw and filtered values of a rational state inside [[lo, hi]]. *)
Definition state_within (lo hi : Q) (s : SensorData Q) : Prop :=
  within lo hi (raw_roll s, raw_pitch s, raw_yaw s) /\
  within lo hi (roll s, pitch s, yaw s).

(** Finite binary64 values in canonical form (what every operation returns). *)
Definition canonical (x : spec_float) : Prop :=
  match x with
  | S754_finite _ m e =>
      fexp B64.prec B64.emax (Z.pos (Pos.size m) + e) = e /\ (e <= 971)%Z
  | _ => True
  end.

(** ** Bytes and headers *)

Lemma byte_val_range (b : byte) : (0 <= byte_val b <= 255)%Z.
Proof.
  unfold byte_val. pose proof (Byte.to_N_bounded b). lia.
Qed.

Lemma byte_val_inj (a b : byte) : byte_val a = byte_val b -> a = b.
Proof.
  unfold byte_val. intros E. apply N2Z.inj in E.
  pose proof (Byte.of_to_N a) as Ha. pose proof (Byte.of_to_N b) as Hb.
  rewrite E in Ha. congruence.
Qed.

Lemma byte_val_eqb (a b : byte) : (byte_val a =? byte_val b)%Z = Byte.eqb a b.
Proof.
  destruct (Byte.eqb a b) eqn:E.
  - apply Byte.byte_dec_bl in E. subst. apply Z.eqb_refl.
  - apply Z.eqb_neq. intros Hv. apply byte_val_inj in Hv.
    apply Byte.eqb_false in E. contradiction.
Qed.

Lemma int16_le_range (lo hi : byte) : (-32768 <= int16_le lo hi <= 32767)%Z.
Proof.
  unfold int16_le, to_signed16.
  pose proof (byte_val_range lo). pose proof (byte_val_range hi).
  destruct (Z.ltb_spec (byte_val lo + 256 * byte_val hi) 32768); lia.
Qed.

(** Two's complement: the signed value and the unsigned little-endian value
    of the two bytes agree modulo 2^16. *)
Lemma int16_le_mod (lo hi : byte) :
  (int16_le lo hi mod 65536 = byte_val lo + 256 * byte_val hi)%Z.
Proof.
  unfold int16_le, to_signed16.
  pose proof (byte_val_range lo). pose proof (byte_val_range hi).
  destruct (Z.ltb_spec (byte_val lo + 256 * byte_val hi) 32768).
  - apply Z.mod_small. lia.
  - symmetry. apply (Z.mod_unique _ _ (-1)); lia.
Qed.

Lemma slice_two (data : list byte) (a b : nat) :
  b = a + 2 -> a + 2 <= length data ->
  slice data a b = [nth a data x00; nth (a + 1) data x00].
Proof.
  intros -> Hlen. unfold slice.
  replace (a + 2 - a) with 2 by lia.
  revert a Hlen. induction data as [|d data IH]; intros a Hlen.
  - simpl in Hlen. lia.
  - destruct a as [|a].
    + destruct data as [|e data]; simpl in *; [lia | reflexivity].
    + simpl in Hlen. simpl skipn. rewrite IH by lia. reflexivity.
Qed.

(** ** Searching an index list *)

Lemma find_app {A} (p : A -> bool) (l1 l2 : list A) :
  find p (l1 ++ l2) = match find p l1 with Some x => Some x | None => find p l2 end.
Proof.
  induction l1 as [|x l1 IH]; simpl; [reflexivity|].
  destruct (p x); [reflexivity | exact IH].
Qed.

Lemma find_none_all {A} (p : A -> bool) (l : list A) :
  (forall x, In x l -> p x = false) -> find p l = None.
Proof.
  induction l as [|x l IH]; simpl; intros Hall; [reflexivity|].
  rewrite (Hall x (or_introl eq_refl)). apply IH. intros y Hy. apply Hall. now right.
Qed.

(** [find] over [seq] returns the least index satisfying the predicate. *)
Lemma find_seq_least (p : nat -> bool) (n s i : nat) :
  find p (seq s n) = Some i <->
  (s <= i < s + n /\ p i = true /\ forall j, s <= j < i -> p j = false).
Proof.
  revert s. induction n as [|n IH]; intros s; simpl.
  - split; [discriminate | lia].
  - destruct (p s) eqn:Ps.
    + split.
      * intros [= <-]. repeat split; try lia. exact Ps.
      * intros (Hr & Pi & Hmin). f_equal.
        destruct (Nat.eq_dec s i) as [|Hne]; [assumption|].
        rewrite (Hmin s) in Ps by lia. discriminate.
    + rewrite IH. split.
      * intros (Hr & Pi & Hmin). repeat split; try lia; [exact Pi|].
        intros j Hj. destruct (Nat.eq_dec j s) as [->|]; [exact Ps|]. apply Hmin. lia.
      * intros (Hr & Pi & Hmin).
        assert (s <> i) by (intros ->; congruence).
        repeat split; try lia; [exact Pi|]. intros j Hj. apply Hmin. lia.
Qed.

Lemma find_seq_none (p : nat -> bool) (n s : nat) :
  find p (seq s n) = None <-> forall j, s <= j < s + n -> p j = false.
Proof.
  split.
  - intros Hf j Hj. apply (find_none p (seq s n) Hf). apply in_seq. lia.
  - intros Hall. apply find_none_all. intros x Hx. apply in_seq in Hx. apply Hall. lia.
Qed.

(** ** The loop finds the first frame *)

Section DecoderFacts.
Context {F : Type} `{PyFloat F}.

Lemma is_frame_at_iff (data : list byte) (i : nat) :
  is_frame_at data i = true <-> frame_at data i.
Proof.
  unfold is_frame_at, frame_at.
  destruct (nth_error data i) as [b0|]; [|intuition discriminate].
  destruct (nth_error data (i + 1)) as [b1|]; [|intuition discriminate].
  rewrite !andb_true_iff, Nat.leb_le. split.
  - intros [[E0 E1] Hl]. apply Byte.byte_dec_bl in E0, E1. subst. auto.
  - intros ([= ->] & [= ->] & Hl). auto.
Qed.

Lemma is_frame_at_short (data : list byte) (i : nat) :
  length data < i + 8 -> is_frame_at data i = false.
Proof.
  intros Hl. destruct (is_frame_at data i) eqn:E; [|reflexivity].
  apply is_frame_at_iff in E. destruct E as (_ & _ & E). lia.
Qed.

Lemma header_at_in_range (data : list byte) (i : nat) :
  i + 8 <= length data -> header_at data i = Ok (is_frame_at data i).
Proof.
  intros Hl. unfold header_at, getitem, is_frame_at.
  destruct (nth_error data i) as [b0|] eqn:E0;
    [|apply nth_error_None in E0; lia].
  destruct (nth_error data (i + 1)) as [b1|] eqn:E1;
    [|apply nth_error_None in E1; lia].
  simpl. change 0x55%Z with (byte_val x55). change 0x61%Z with (byte_val x61).
  rewrite !byte_val_eqb.
  apply Nat.leb_le in Hl. rewrite Hl, andb_true_r.
  destruct (Byte.eqb b0 x55); reflexivity.
Qed.

Lemma unpack_frame_in_range (data : list byte) (i : nat) :
  i + 8 <= length data -> unpack_frame data i = Ok (frame_reading data i).
Proof.
  intros Hl. unfold unpack_frame, frame_reading.
  rewrite (@slice_two data (i + 2) (i + 4)) by lia.
  rewrite (@slice_two data (i + 4) (i + 6)) by lia.
  rewrite (@slice_two data (i + 6) (i + 8)) by lia.
  replace (i + 2 + 1) with (i + 3) by lia.
  replace (i + 4 + 1) with (i + 5) by lia.
  replace (i + 6 + 1) with (i + 7) by lia.
  reflexivity.
Qed.

Lemma scan_in_range (data : list byte) (idx : list nat) :
  (forall i, In i idx -> i + 8 <= length data) ->
  scan data idx = Ok (option_map (frame_reading data) (find (is_frame_at data) idx)).
Proof.
  induction idx as [|i idx IH]; intros Hr; simpl; [reflexivity|].
  rewrite header_at_in_range by (apply Hr; now left). simpl.
  destruct (is_frame_at data i).
  - rewrite unpack_frame_in_range by (apply Hr; now left). reflexivity.
  - apply IH. intros j Hj. apply Hr. now right.
Qed.

Lemma first_frame_range (data : list byte) :
  first_frame data = find (is_frame_at data) (seq 0 (length data - 7)).
Proof.
  unfold first_frame.
  replace (length data) with ((length data - 7) + (length data - (length data - 7))) at 1 by lia.
  rewrite seq_app, find_app.
  destruct (find (is_frame_at data) (seq 0 (length data - 7))); [reflexivity|].
  apply find_none_all. intros i Hi. apply in_seq in Hi.
  apply is_frame_at_short. lia.
Qed.

(** The [try] block never raises on a byte buffer, and its value is the
    reading of the first frame. *)
Lemma decode_body_spec (data : list byte) :
  decode_body data = Ok (decode_spec data).
Proof.
  unfold decode_body, decode_spec. rewrite first_frame_range.
  apply scan_in_range. intros i Hi. apply in_seq in Hi. lia.
Qed.

Lemma decode_witmotion_spec (data : list byte) :
  decode_witmotion data = decode_spec data.
Proof. unfold decode_witmotion. now rewrite decode_body_spec. Qed.

Lemma first_frame_some (data : list byte) (i : nat) :
  first_frame data = Some i <->
  (frame_at data i /\ forall j, j < i -> ~ frame_at data j).
Proof.
  unfold first_frame. rewrite find_seq_least. split.
  - intros (Hr & Pi & Hmin). split; [now apply is_frame_at_iff|].
    intros j Hj Hf. apply is_frame_at_iff in Hf. rewrite Hmin in Hf by lia. discriminate.
  - intros (Hf & Hmin). pose proof Hf as (_ & _ & Hl).
    repeat split; try lia; [now apply is_frame_at_iff|].
    intros j Hj. destruct (is_frame_at data j) eqn:E; [|reflexivity].
    apply is_frame_at_iff in E. exfalso. apply (Hmin j); [lia | exact E].
Qed.

Lemma first_frame_none (data : list byte) :
  first_frame data = None <-> forall i, ~ frame_at data i.
Proof.
  unfold first_frame. rewrite find_seq_none. split.
  - intros Hall i Hf. pose proof Hf as (_ & _ & Hl).
    apply is_frame_at_iff in Hf. rewrite Hall in Hf by lia. discriminate.
  - intros Hno j _. destruct (is_frame_at data j) eqn:E; [|reflexivity].
    apply is_frame_at_iff in E. now apply Hno in E.
Qed.
End DecoderFacts.

(** ** The conversion in binary64

    For a field value [v] with [45 * |v|] below [2^53], each of the three
    roundings in [v / 32768.0 * 180.0] is exact: the result is the float
    with mantissa [norm53 (45 * |v|)], which stands for [45 * |v| / 8192]. *)

Unset Implicit Arguments.
#[local] Open Scope Z_scope.

Lemma digits2_pos_size (p : positive) : digits2_pos p = Pos.size p.
Proof. induction p; simpl; congruence. Qed.

Lemma iter_pos_nat {A} (f : A -> A) (p : positive) (x : A) :
  iter_pos f p x = Nat.iter (Pos.to_nat p) f x.
Proof.
  unfold Nat.iter. rewrite <- Pos2Nat.inj_iter.
  revert x. induction p as [p IH|p IH|]; intros x; simpl.
  - rewrite !IH, !Pos.iter_swap. reflexivity.
  - rewrite !IH. reflexivity.
  - reflexivity.
Qed.

Lemma size_shiftl_nat (q : positive) (n : nat) :
  Z.pos (Pos.size (Pos.shiftl_nat q n)) = Z.pos (Pos.size q) + Z.of_nat n.
Proof.
  induction n as [|n IH].
  - simpl. lia.
  - change (Pos.shiftl_nat q (S n)) with (xO (Pos.shiftl_nat q n)).
    simpl Pos.size. rewrite Pos2Z.inj_succ, IH. lia.
Qed.

Lemma shr_1_shiftl_nat (q : positive) (n : nat) :
  Nat.iter n shr_1 (Build_shr_record (Z.pos (Pos.shiftl_nat q n)) false false) =
  Build_shr_record (Z.pos q) false false.
Proof.
  induction n as [|n IH]; [reflexivity|].
  rewrite Nat.iter_succ_r.
  change (Pos.shiftl_nat q (S n)) with (xO (Pos.shiftl_nat q n)).
  exact IH.
Qed.

Lemma shr_fexp_exact (q : positive) (n : nat) (e : Z) :
  Pos.size q = 53%positive -> -1074 <= e + Z.of_nat n ->
  shr_fexp B64.prec B64.emax (Z.pos (Pos.shiftl_nat q n)) e loc_Exact =
  (Build_shr_record (Z.pos q) false false, e + Z.of_nat n).
Proof.
  intros Hq He. unfold shr_fexp, Zdigits2.
  rewrite digits2_pos_size, size_shiftl_nat, Hq.
  unfold fexp, emin, B64.prec, B64.emax.
  replace (Z.max (53 + Z.of_nat n + e - 53) (3 - 1024 - 53) - e) with (Z.of_nat n) by lia.
  unfold shr, shr_record_of_loc.
  destruct n as [|n].
  - simpl. f_equal. lia.
  - cbn [Z.of_nat]. rewrite iter_pos_nat, SuccNat2Pos.id_succ, shr_1_shiftl_nat.
    reflexivity.
Qed.

Lemma binary_round_aux_exact (s : bool) (q : positive) (n : nat) (e : Z) :
  Pos.size q = 53%positive -> -1074 <= e + Z.of_nat n <= 971 ->
  binary_round_aux B64.prec B64.emax s (Z.pos (Pos.shiftl_nat q n)) e loc_Exact =
  S754_finite s q (e + Z.of_nat n).
Proof.
  intros Hq He. unfold binary_round_aux.
  rewrite shr_fexp_exact by (assumption || lia).
  cbn [shr_m loc_of_shr_record round_nearest_even].
  assert (E2 := shr_fexp_exact q 0 (e + Z.of_nat n) Hq).
  change (Pos.shiftl_nat q 0) with q in E2.
  rewrite E2 by (simpl; lia).
  cbn [shr_m]. replace (e + Z.of_nat n + Z.of_nat 0) with (e + Z.of_nat n) by (simpl; lia).
  destruct (Z.leb_spec (e + Z.of_nat n) (B64.emax - B64.prec)) as [_|H]; [reflexivity|].
  unfold B64.emax, B64.prec in H. lia.
Qed.

Lemma Zpos_shiftl_nat (q : positive) (n : nat) :
  Z.pos (Pos.shiftl_nat q n) = Z.pos q * 2 ^ Z.of_nat n.
Proof.
  induction n as [|n IH].
  - simpl. lia.
  - change (Pos.shiftl_nat q (S n)) with (xO (Pos.shiftl_nat q n)).
    rewrite Pos2Z.inj_xO, IH, Nat2Z.inj_succ, Z.pow_succ_r by lia. ring.
Qed.

Lemma size_norm53 (p : positive) :
  Z.pos (Pos.size p) <= 53 -> Pos.size (norm53 p) = 53%positive.
Proof.
  intros Hp. apply Pos2Z.inj. unfold norm53. rewrite size_shiftl_nat. lia.
Qed.

Lemma shl_align_norm53 (p : positive) :
  Z.pos (Pos.size p) <= 53 ->
  shl_align p 0 (Z.pos (Pos.size p) - 53) = (norm53 p, Z.pos (Pos.size p) - 53).
Proof.
  intros Hp. unfold shl_align, norm53.
  destruct (Z.pos (Pos.size p) - 53 - 0) as [|d|d] eqn:E; try lia.
  - replace (53 - Z.pos (Pos.size p)) with 0 by lia.
    change (Pos.shiftl_nat p (Z.to_nat 0)) with p. f_equal. lia.
  - replace (53 - Z.pos (Pos.size p)) with (Z.pos d) by lia.
    rewrite Pos2Nat.inj_iter. reflexivity.
Qed.

Lemma b64_of_Z_pos (s : bool) (p : positive) :
  Z.pos (Pos.size p) <= 53 ->
  binary_round B64.prec B64.emax s p 0 = S754_finite s (norm53 p) (Z.pos (Pos.size p) - 53).
Proof.
  intros Hp. unfold binary_round.
  rewrite digits2_pos_size.
  replace (fexp B64.prec B64.emax (Z.pos (Pos.size p) + 0)) with (Z.pos (Pos.size p) - 53)
    by (unfold fexp, emin, B64.prec, B64.emax; lia).
  rewrite shl_align_norm53 by exact Hp.
  assert (E := binary_round_aux_exact s (norm53 p) 0 (Z.pos (Pos.size p) - 53)
                 (size_norm53 p Hp)).
  change (Pos.shiftl_nat (norm53 p) 0) with (norm53 p) in E.
  change (Z.of_nat 0) with 0 in E.
  rewrite E by lia. f_equal. lia.
Qed.

Lemma div_core_32768 (m : positive) (e : Z) :
  Pos.size m = 53%positive -> -1058 <= e ->
  SFdiv_core_binary B64.prec B64.emax (Z.pos m) e (Z.pos two52) (-37) =
  (Z.pos (m~0), e - 16, loc_Exact).
Proof.
  intros Hm He. unfold SFdiv_core_binary, Zdigits2.
  rewrite digits2_pos_size, Hm.
  change (digits2_pos two52) with 53%positive. cbv zeta.
  replace (Z.min (fexp B64.prec B64.emax (53 + e - (53 + -37))) (e - -37)) with (e - 16)
    by (unfold fexp, emin, B64.prec, B64.emax; lia).
  replace (e - -37 - (e - 16)) with 53 by lia.
  assert (Hs : Z.shiftl (Z.pos m) 53 = Z.pos m * 2 ^ 53) by (apply Z.shiftl_mul_pow2; lia).
  rewrite Hs.
  pose proof (Z_div_mod (Z.pos m * 2 ^ 53) (Z.pos two52) eq_refl) as Hd.
  destruct (Z.div_eucl (Z.pos m * 2 ^ 53) (Z.pos two52)) as [q r].
  destruct Hd as [Hd Hr].
  change (2 ^ 53) with (2 * Z.pos two52) in Hd.
  unfold two52 in Hd, Hr.
  assert (q = Z.pos (m~0) /\ r = 0) as [-> ->] by (rewrite Pos2Z.inj_xO; lia).
  reflexivity.
Qed.

Lemma div_32768 (s : bool) (m : positive) (e : Z) :
  Pos.size m = 53%positive -> -1058 <= e <= 986 ->
  B64.div (S754_finite s m e) (B64.of_Z 32768) = S754_finite s m (e - 15).
Proof.
  intros Hm He.
  change (B64.of_Z 32768) with (S754_finite false two52 (-37)).
  unfold B64.div, SFdiv. rewrite div_core_32768 by (assumption || lia).
  rewrite xorb_false_r.
  assert (E := binary_round_aux_exact s m 1 (e - 16) Hm).
  change (Pos.shiftl_nat m 1) with (m~0)%positive in E.
  change (Z.of_nat 1) with 1 in E.
  rewrite E by lia. f_equal. lia.
Qed.

Lemma size_bounds (p : positive) :
  2 ^ Z.pos (Pos.size p) <= 2 * Z.pos p /\ Z.pos p < 2 ^ Z.pos (Pos.size p).
Proof.
  pose proof (Pos.size_le p) as Hl. pose proof (Pos.size_gt p) as Hg.
  apply Pos2Z.pos_le_pos in Hl. apply Pos2Z.pos_lt_pos in Hg.
  rewrite Pos2Z.inj_pow in Hl, Hg. rewrite Pos2Z.inj_xO in Hl. split; assumption.
Qed.

Lemma size_mono (p q : positive) :
  Z.pos p <= Z.pos q -> Z.pos (Pos.size p) <= Z.pos (Pos.size q).
Proof.
  intros Hpq. pose proof (size_bounds p) as [Hp _]. pose proof (size_bounds q) as [_ Hq].
  assert (H : 2 ^ Z.pos (Pos.size p) < 2 ^ (Z.pos (Pos.size q) + 1)).
  { rewrite Z.pow_add_r by lia. lia. }
  apply Z.pow_lt_mono_r_iff in H; lia.
Qed.

Lemma Zpos_norm53 (p : positive) :
  Z.pos (Pos.size p) <= 53 ->
  Z.pos (norm53 p) = Z.pos p * 2 ^ (53 - Z.pos (Pos.size p)).
Proof.
  intros Hp. unfold norm53. rewrite Zpos_shiftl_nat, Z2Nat.id by lia. reflexivity.
Qed.

Lemma mul_180 (s : bool) (p : positive) (e : Z) :
  Z.pos (Pos.size (45 * p)) <= 53 ->
  -1074 <= e + 2 + Z.pos (Pos.size (45 * p)) - Z.pos (Pos.size p) <= 971 ->
  B64.mul (S754_finite s (norm53 p) e) (B64.of_Z 180) =
  S754_finite s (norm53 (45 * p))
    (e + 2 + Z.pos (Pos.size (45 * p)) - Z.pos (Pos.size p)).
Proof.
  intros H45 He.
  assert (Hsz : Z.pos (Pos.size p) <= Z.pos (Pos.size (45 * p))).
  { apply size_mono. lia. }
  set (n := Z.to_nat (47 + Z.pos (Pos.size (45 * p)) - Z.pos (Pos.size p))).
  assert (Hprod : (norm53 p * c180)%positive = Pos.shiftl_nat (norm53 (45 * p)) n).
  { apply Pos2Z.inj. rewrite Pos2Z.inj_mul, Zpos_shiftl_nat, !Zpos_norm53 by lia.
    unfold n. rewrite Z2Nat.id by lia.
    change (Z.pos c180) with (45 * 2 ^ 47).
    rewrite Pos2Z.inj_mul.
    assert (Hpow : 2 ^ (53 - Z.pos (Pos.size p)) * 2 ^ 47 =
                   2 ^ (53 - Z.pos (Pos.size (45 * p))) *
                   2 ^ (47 + Z.pos (Pos.size (45 * p)) - Z.pos (Pos.size p))).
    { rewrite <- !Z.pow_add_r by lia. f_equal. lia. }
    transitivity (45 * Z.pos p * (2 ^ (53 - Z.pos (Pos.size p)) * 2 ^ 47)); [ring|].
    rewrite Hpow. ring. }
  change (B64.of_Z 180) with (S754_finite false c180 (-45)).
  unfold B64.mul, SFmul. rewrite Hprod, xorb_false_r.
  rewrite binary_round_aux_exact.
  - f_equal. unfold n. rewrite Z2Nat.id by lia. lia.
  - apply size_norm53. exact H45.
  - unfold n. rewrite Z2Nat.id by lia. lia.
Qed.

Lemma to_degrees_form (s : bool) (p : positive) :
  Z.pos (Pos.size (45 * p)) <= 53 ->
  B64.mul (B64.div (binary_round B64.prec B64.emax s p 0) (B64.of_Z 32768)) (B64.of_Z 180) =
  S754_finite s (norm53 (45 * p)) (Z.pos (Pos.size (45 * p)) - 66).
Proof.
  intros H45.
  assert (Hsz : Z.pos (Pos.size p) <= Z.pos (Pos.size (45 * p))) by (apply size_mono; lia).
  rewrite b64_of_Z_pos by lia.
  rewrite div_32768 by (try apply size_norm53; lia).
  rewrite mul_180 by lia.
  f_equal. lia.
Qed.

Lemma to_degrees_pos (p : positive) :
  Z.pos (Pos.size (45 * p)) <= 53 ->
  to_degrees (Z.pos p) =
  S754_finite false (norm53 (45 * p)) (Z.pos (Pos.size (45 * p)) - 66).
Proof. apply (to_degrees_form false). Qed.

Lemma to_degrees_neg (p : positive) :
  Z.pos (Pos.size (45 * p)) <= 53 ->
  to_degrees (Z.neg p) =
  S754_finite true (norm53 (45 * p)) (Z.pos (Pos.size (45 * p)) - 66).
Proof. apply (to_degrees_form true). Qed.

Lemma norm53_value (x : positive) :
  Z.pos (Pos.size x) <= 53 ->
  (inject_Z (Z.pos (norm53 x)) * 2 ^ (Z.pos (Pos.size x) - 66) ==
   inject_Z (Z.pos x) / 8192)%Q.
Proof.
  intros Hx. rewrite Zpos_norm53 by exact Hx.
  rewrite inject_Z_mult, Zpower_Qpower by lia.
  change (inject_Z 2) with 2%Q.
  rewrite <- Qmult_assoc, <- Qpower_plus by discriminate.
  replace (53 - Z.pos (Pos.size x) + (Z.pos (Pos.size x) - 66)) with (-13) by lia.
  reflexivity.
Qed.

Lemma size_int16 (p : positive) :
  Z.pos p <= 32768 -> Z.pos (Pos.size (45 * p)) <= 21.
Proof.
  intros Hp. change 21 with (Z.pos (Pos.size 1474560)). apply size_mono. lia.
Qed.

Lemma degrees_b64_exact (v : Z) :
  int16 v ->
  exists q, B64.to_Q (to_degrees v) = Some q /\ (q == inject_Z v / 32768 * 180)%Q.
Proof.
  intros [Hlo Hhi]. destruct v as [|p|p].
  - exists 0%Q. split; reflexivity.
  - pose proof (size_int16 p ltac:(lia)) as Hs.
    rewrite to_degrees_pos by lia. eexists. split; [reflexivity|].
    rewrite norm53_value by lia. rewrite Pos2Z.inj_mul, inject_Z_mult.
    change (inject_Z 45) with 45%Q. field.
  - pose proof (size_int16 p ltac:(lia)) as Hs.
    rewrite to_degrees_neg by lia. eexists. split; [reflexivity|].
    rewrite norm53_value by lia. rewrite Pos2Z.inj_mul, inject_Z_mult.
    change (inject_Z 45) with 45%Q.
    change (Z.neg p) with (- Z.pos p). rewrite inject_Z_opp. field.
Qed.

(** Order of two normalized positive floats. *)
Lemma norm53_compare (x y : positive) :
  Z.pos x < Z.pos y -> Z.pos (Pos.size y) <= 53 ->
  match Z.compare (Z.pos (Pos.size x) - 66) (Z.pos (Pos.size y) - 66) with
  | Lt => True
  | Eq => Pos.compare_cont Eq (norm53 x) (norm53 y) = Lt
  | Gt => False
  end.
Proof.
  intros Hxy Hy. pose proof (size_mono x y ltac:(lia)) as Hs.
  destruct (Z.compare_spec (Z.pos (Pos.size x) - 66) (Z.pos (Pos.size y) - 66)) as [E|L|G].
  - change (Pos.compare_cont Eq (norm53 x) (norm53 y)) with (Pos.compare (norm53 x) (norm53 y)).
    change (Z.pos (norm53 x) < Z.pos (norm53 y)).
    rewrite !Zpos_norm53 by lia.
    replace (Z.pos (Pos.size x)) with (Z.pos (Pos.size y)) by lia.
    apply Z.mul_lt_mono_pos_r; [|exact Hxy]. apply Z.pow_pos_nonneg; lia.
  - exact I.
  - lia.
Qed.

Lemma norm53_compare_lt (x y : positive) :
  Z.pos x < Z.pos y -> Z.pos (Pos.size y) <= 53 ->
  SFcompare (S754_finite false (norm53 x) (Z.pos (Pos.size x) - 66))
            (S754_finite false (norm53 y) (Z.pos (Pos.size y) - 66)) = Some Lt /\
  SFcompare (S754_finite true (norm53 y) (Z.pos (Pos.size y) - 66))
            (S754_finite true (norm53 x) (Z.pos (Pos.size x) - 66)) = Some Lt.
Proof.
  intros Hxy Hy. pose proof (norm53_compare x y Hxy Hy) as Hc.
  unfold SFcompare. rewrite (Z.compare_antisym (Z.pos (Pos.size x) - 66)).
  destruct (Z.compare (Z.pos (Pos.size x) - 66) (Z.pos (Pos.size y) - 66)).
  - change (Pos.compare_cont Eq (norm53 y) (norm53 x))
      with (Pos.compare (norm53 y) (norm53 x)).
    rewrite (Pos.compare_antisym (norm53 x)).
    change (Pos.compare (norm53 x) (norm53 y))
      with (Pos.compare_cont Eq (norm53 x) (norm53 y)).
    rewrite Hc. split; reflexivity.
  - split; reflexivity.
  - contradiction.
Qed.

Lemma degrees_b64_range (v : Z) :
  int16 v ->
  B64.leb (B64.of_Z (-180)) (to_degrees v) = true /\
  B64.ltb (to_degrees v) (B64.of_Z 180) = true.
Proof.
  intros [Hlo Hhi].
  assert (E180 : B64.of_Z 180 =
    S754_finite false (norm53 1474560) (Z.pos (Pos.size 1474560) - 66))
    by (vm_compute; reflexivity).
  assert (En180 : B64.of_Z (-180) =
    S754_finite true (norm53 1474560) (Z.pos (Pos.size 1474560) - 66))
    by (vm_compute; reflexivity).
  assert (H53 : Z.pos (Pos.size 1474560) <= 53) by (vm_compute; discriminate).
  destruct v as [|p|p].
  - split; vm_compute; reflexivity.
  - pose proof (size_int16 p ltac:(lia)) as Hs.
    rewrite to_degrees_pos by lia. split.
    + rewrite En180. reflexivity.
    + rewrite E180. unfold B64.ltb, SFltb.
      destruct (norm53_compare_lt (45 * p) 1474560 ltac:(lia) H53) as [Hc _].
      rewrite Hc. reflexivity.
  - pose proof (size_int16 p ltac:(lia)) as Hs.
    split.
    + destruct (Z.eq_dec (Z.pos p) 32768) as [E|N].
      * injection E as ->. vm_compute. reflexivity.
      * rewrite to_degrees_neg by lia. rewrite En180. unfold B64.leb, SFleb.
        destruct (norm53_compare_lt (45 * p) 1474560 ltac:(lia) H53) as [_ Hc].
        rewrite Hc. reflexivity.
    + rewrite to_degrees_neg by lia. rewrite E180. reflexivity.
Qed.

#[local] Close Scope Z_scope.
Set Implicit Arguments.

Lemma degrees_Q_range (v : Z) :
  int16 v -> (-180 <= to_degrees v /\ to_degrees v < 180)%Q.
Proof.
  intros [Hlo Hhi].
  assert (E : (to_degrees v == inject_Z v * (45 # 8192))%Q).
  { unfold to_degrees. simpl. field. }
  rewrite E.
  assert (Hl : (inject_Z (-32768) <= inject_Z v)%Q) by (rewrite <- Zle_Qle; exact Hlo).
  assert (Hh : (inject_Z v <= inject_Z 32767)%Q) by (rewrite <- Zle_Qle; exact Hhi).
  change (inject_Z (-32768)) with (-32768)%Q in Hl.
  change (inject_Z 32767) with 32767%Q in Hh.
  generalize dependent (inject_Z v). intros x _ Hl Hh.
  split; lra.
Qed.

(** ** The decoder on frames *)

Section FrameFacts.
Context {F : Type} `{PyFloat F}.

Lemma decode_first_frame (data : list byte) (i : nat) :
  frame_at data i -> (forall j, j < i -> ~ frame_at data j) ->
  decode_witmotion data = Some (frame_reading data i).
Proof.
  intros Hf Hmin. rewrite decode_witmotion_spec. unfold decode_spec.
  assert (E : first_frame data = Some i) by (apply first_frame_some; auto).
  now rewrite E.
Qed.

Lemma decode_no_frame (data : list byte) :
  (forall i, ~ frame_at data i) -> decode_witmotion data = None.
Proof.
  intros Hno. rewrite decode_witmotion_spec. unfold decode_spec.
  assert (E : first_frame data = None) by (now apply first_frame_none).
  now rewrite E.
Qed.

Lemma short_no_frame (data : list byte) :
  length data < 8 -> forall i, ~ frame_at data i.
Proof. intros Hl i (_ & _ & Hi). lia. Qed.

Lemma decode_after_garbage (g rest : list byte) (a b c d e f : byte) :
  no_header g ->
  decode_witmotion (g ++ [x55; x61; a; b; c; d; e; f] ++ rest) =
  Some (to_degrees (int16_le a b), to_degrees (int16_le c d), to_degrees (int16_le e f)).
Proof.
  intros Hg.
  rewrite (@decode_first_frame _ (length g)).
  - unfold frame_reading.
    rewrite !app_nth2_plus. reflexivity.
  - unfold frame_at. repeat split.
    + rewrite nth_error_app2 by lia. now rewrite Nat.sub_diag.
    + rewrite nth_error_app2 by lia.
      replace (length g + 1 - length g) with 1 by lia. reflexivity.
    + rewrite !length_app. simpl. lia.
  - intros j Hj (E0 & E1 & _).
    destruct (Nat.eq_dec (j + 1) (length g)) as [Hend|Hin].
    + rewrite nth_error_app2 in E1 by lia.
      replace (j + 1 - length g) with 0 in E1 by lia. discriminate.
    + apply (Hg j). rewrite nth_error_app1 in E0, E1 by lia. auto.
Qed.
End FrameFacts.

Lemma no_header_nil : no_header [].
Proof. intros i [E _]. destruct i; discriminate. Qed.

(** ** The first version's decoder and callback *)

Section V1Facts.
Context {F : Type} `{PyFloat F}.

Lemma nth_error_slice (data : list byte) (a b k : nat) :
  k < b - a -> nth_error (slice data a b) k = nth_error data (a + k).
Proof.
  intros Hk. unfold slice. rewrite nth_error_firstn, nth_error_skipn.
  apply Nat.ltb_lt in Hk. rewrite Hk. reflexivity.
Qed.

Lemma nth_slice (data : list byte) (a b k : nat) :
  k < b - a -> nth k (slice data a b) x00 = nth (a + k) data x00.
Proof.
  intros Hk. unfold slice. rewrite nth_firstn, nth_skipn.
  apply Nat.ltb_lt in Hk. rewrite Hk. reflexivity.
Qed.

Lemma length_slice (data : list byte) (a b : nat) :
  b <= length data -> length (slice data a b) = b - a.
Proof.
  intros Hb. unfold slice. rewrite length_firstn, length_skipn. lia.
Qed.

Lemma V1_decode_spec (data : list byte) :
  V1.decode_witmotion data =
  Ok (if is_frame11_at data 0 then Some (frame_reading data 0) else None).
Proof.
  unfold V1.decode_witmotion, is_frame11_at.
  destruct (Nat.leb_spec 11 (length data)) as [Hl|Hl].
  - destruct data as [|b0 [|b1 data]]; try (simpl in Hl; lia).
    replace (0 + 11 <=? length (b0 :: b1 :: data)) with true
      by (symmetry; apply Nat.leb_le; lia).
    rewrite (@slice_two (b0 :: b1 :: data) 2 4 eq_refl) by (simpl in *; lia).
    rewrite (@slice_two (b0 :: b1 :: data) 4 6 eq_refl) by (simpl in *; lia).
    rewrite (@slice_two (b0 :: b1 :: data) 6 8 eq_refl) by (simpl in *; lia).
    unfold getitem, frame_reading.
    cbn [nth_error Nat.add bind unpack_h].
    rewrite andb_true_r.
    change 0x55%Z with (byte_val x55). change 0x61%Z with (byte_val x61).
    rewrite !byte_val_eqb.
    destruct (Byte.eqb b0 x55); [|reflexivity].
    destruct (Byte.eqb b1 x61); reflexivity.
  - replace (0 + 11 <=? length data) with false
      by (symmetry; apply Nat.leb_gt; lia).
    destruct (nth_error data 0); [|reflexivity].
    destruct (nth_error data (0 + 1)); [|reflexivity].
    rewrite andb_false_r. reflexivity.
Qed.

Lemma is_frame11_is_frame (data : list byte) (i : nat) :
  is_frame11_at data i = true -> is_frame_at data i = true.
Proof.
  unfold is_frame11_at, is_frame_at.
  destruct (nth_error data i); [|discriminate].
  destruct (nth_error data (i + 1)); [|discriminate].
  rewrite !andb_true_iff, !Nat.leb_le. intros [[E0 E1] Hl]. repeat split; auto. lia.
Qed.

Lemma header_at11 (data : list byte) (i : nat) :
  i + 11 <= length data -> header_at data i = Ok (is_frame11_at data i).
Proof.
  intros Hl. unfold header_at, getitem, is_frame11_at.
  destruct (nth_error data i) as [b0|] eqn:E0;
    [|apply nth_error_None in E0; lia].
  destruct (nth_error data (i + 1)) as [b1|] eqn:E1;
    [|apply nth_error_None in E1; lia].
  simpl. change 0x55%Z with (byte_val x55). change 0x61%Z with (byte_val x61).
  rewrite !byte_val_eqb.
  apply Nat.leb_le in Hl. rewrite Hl, andb_true_r.
  destruct (Byte.eqb b0 x55); reflexivity.
Qed.

Lemma V1_decode_slice (data : list byte) (i : nat) :
  i + 11 <= length data -> is_frame11_at data i = true ->
  V1.decode_witmotion (slice data i (i + 11)) = Ok (Some (frame_reading data i)).
Proof.
  intros Hl Hf. rewrite V1_decode_spec.
  assert (E : is_frame11_at (slice data i (i + 11)) 0 = true).
  { unfold is_frame11_at in *.
    rewrite !nth_error_slice, length_slice by lia.
    change (0 + 1) with 1. rewrite Nat.add_0_r.
    destruct (nth_error data i); [|discriminate].
    destruct (nth_error data (i + 1)); [|discriminate].
    rewrite !andb_true_iff in *. destruct Hf as [Hh _]. split; [exact Hh|].
    apply Nat.leb_le. lia. }
  rewrite E. do 2 f_equal. unfold frame_reading.
  rewrite !nth_slice by lia. reflexivity.
Qed.

Lemma V1_callback_loop_spec (data : list byte) (idx : list nat) (s : V1.SensorData F) :
  (forall i, In i idx -> i + 11 <= length data) ->
  V1.callback_loop data idx s =
  Ok (match find (is_frame11_at data) (rev idx) with
      | Some i => V1_stored (frame_reading data i)
      | None => s
      end).
Proof.
  revert s. induction idx as [|i rest IH]; intros s Hin; [reflexivity|].
  simpl V1.callback_loop. simpl rev. rewrite find_app.
  rewrite header_at11 by (apply Hin; now left).
  assert (Hrest : forall j, In j rest -> j + 11 <= length data)
    by (intros j Hj; apply Hin; now right).
  simpl bind. simpl find.
  destruct (is_frame11_at data i) eqn:Hf.
  - rewrite V1_decode_slice by (try exact Hf; apply Hin; now left).
    simpl bind. destruct (frame_reading data i) as [[r p] y] eqn:Er.
    rewrite IH by exact Hrest.
    destruct (find (is_frame11_at data) (rev rest)); reflexivity.
  - rewrite IH by exact Hrest.
    destruct (find (is_frame11_at data) (rev rest)); reflexivity.
Qed.

Lemma V1_callback_spec (s : V1.SensorData F) (data : list byte) :
  V1.callback s data =
  Ok (match last_frame11 data with
      | Some i => V1_stored (frame_reading data i)
      | None => s
      end).
Proof.
  unfold V1.callback, last_frame11. apply V1_callback_loop_spec.
  intros i Hi. apply in_seq in Hi. lia.
Qed.

Lemma first_frame_zero (data : list byte) :
  is_frame_at data 0 = true -> first_frame data = Some 0.
Proof.
  intros Hf. apply first_frame_some. split; [now apply is_frame_at_iff|].
  intros j Hj. lia.
Qed.

Lemma V1_decode_short (data : list byte) :
  length data < 11 -> V1.decode_witmotion data = Ok None.
Proof.
  intros Hl. unfold V1.decode_witmotion.
  destruct (Nat.leb_spec 11 (length data)); [lia | reflexivity].
Qed.

Lemma V1_decode_frame11 (a b c d e f t1 t2 t3 : byte) (t : list byte) :
  V1.decode_witmotion ([x55; x61; a; b; c; d; e; f] ++ t1 :: t2 :: t3 :: t) =
  Ok (Some (to_degrees (int16_le a b), to_degrees (int16_le c d),
            to_degrees (int16_le e f))).
Proof. rewrite V1_decode_spec. reflexivity. Qed.

Lemma V1_callback_short (s : V1.SensorData F) (data : list byte) :
  length data <= 10 -> V1.callback s data = Ok s.
Proof.
  intros Hl. unfold V1.callback.
  replace (length data - 10) with 0 by lia. reflexivity.
Qed.

Lemma last_frame11_end (g : list byte) (a b c d e f t1 t2 t3 : byte) :
  last_frame11 (g ++ [x55; x61; a; b; c; d; e; f] ++ [t1; t2; t3]) = Some (length g).
Proof.
  unfold last_frame11.
  set (data := g ++ [x55; x61; a; b; c; d; e; f] ++ [t1; t2; t3]).
  assert (Hlen : length data = length g + 11)
    by (unfold data; rewrite length_app; reflexivity).
  assert (Hf : is_frame11_at data (length g) = true).
  { unfold is_frame11_at. rewrite Hlen. unfold data.
    rewrite (nth_error_app2 g _ (n:=length g)) by lia.
    rewrite (nth_error_app2 g _ (n:=length g + 1)) by lia.
    replace (length g - length g) with 0 by lia.
    replace (length g + 1 - length g) with 1 by lia.
    cbn [nth_error app]. rewrite Nat.leb_refl. reflexivity. }
  rewrite Hlen. replace (length g + 11 - 10) with (S (length g)) by lia.
  rewrite seq_S, rev_app_distr. cbn [rev app Nat.add find].
  rewrite Hf. reflexivity.
Qed.

Lemma V1_callback_frame11_end (s : V1.SensorData F) (g : list byte)
  (a b c d e f t1 t2 t3 : byte) :
  V1.callback s (g ++ [x55; x61; a; b; c; d; e; f] ++ [t1; t2; t3]) =
  Ok (V1.mkSensorData (to_degrees (int16_le a b)) (to_degrees (int16_le c d))
        (to_degrees (int16_le e f)) true).
Proof.
  rewrite V1_callback_spec, last_frame11_end. unfold frame_reading.
  rewrite !app_nth2_plus. reflexivity.
Qed.
End V1Facts.

(** ** Decoder claims *)

(** C1, as the code has it.  On an 8-byte buffer
    [0x55, 0x61, r_lo, r_hi, p_lo, p_hi, y_lo, y_hi] the scanning decoder
    of [arena.py] returns the three fields converted by [v / 32768 * 180],
    whatever the float arithmetic; each field is the little-endian signed
    16-bit value of its byte pair; in binary64 the converted value is finite
    and exactly the rational [v / 32768 * 180]; and the known vector decodes
    to (90.0, 0.0, -90.0), in binary64 and over the rationals.  The decoder
    of the first version asks for eleven bytes: on the 8-byte buffer it
    returns [None], and it returns the same three converted fields as soon
    as three more bytes follow, (90.0, 0.0, -90.0) for the known vector. *)
Theorem C1_decode_single_frame :
  (forall (F : Type) (PF : PyFloat F) (rl rh pl ph yl yh : byte),
      decode_witmotion [x55; x61; rl; rh; pl; ph; yl; yh] =
      Some (to_degrees (int16_le rl rh),
            to_degrees (int16_le pl ph),
            to_degrees (int16_le yl yh)))
  /\ (forall lo hi : byte,
        int16 (int16_le lo hi) /\
        (int16_le lo hi mod 65536 = byte_val lo + 256 * byte_val hi)%Z /\
        (to_degrees (int16_le lo hi) == inject_Z (int16_le lo hi) / 32768 * 180)%Q /\
        exists q, B64.to_Q (to_degrees (int16_le lo hi)) = Some q /\
                  (q == inject_Z (int16_le lo hi) / 32768 * 180)%Q)
  /\ decode_witmotion known_frame = Some (B64.of_Z 90, B64.of_Z 0, B64.of_Z (-90))
  /\ (exists a, decode_witmotion known_frame = Some a /\ angles_Qeq a (90, 0, -90)%Q)
  /\ (forall (F : Type) (PF : PyFloat F) (rl rh pl ph yl yh : byte),
        V1.decode_witmotion (F:=F) [x55; x61; rl; rh; pl; ph; yl; yh] = Ok None)
  /\ (forall (F : Type) (PF : PyFloat F) (rl rh pl ph yl yh t1 t2 t3 : byte)
             (t : list byte),
        V1.decode_witmotion ([x55; x61; rl; rh; pl; ph; yl; yh] ++ t1 :: t2 :: t3 :: t) =
        Ok (Some (to_degrees (int16_le rl rh),
                  to_degrees (int16_le pl ph),
                  to_degrees (int16_le yl yh))))
  /\ (forall (t1 t2 t3 : byte) (t : list byte),
        V1.decode_witmotion (known_frame ++ t1 :: t2 :: t3 :: t) =
        Ok (Some (B64.of_Z 90, B64.of_Z 0, B64.of_Z (-90)))).
Proof.
  split; [|split; [|split; [|split; [|split; [|split]]]]].
  - intros F PF rl rh pl ph yl yh.
    exact (@decode_after_garbage F PF [] [] rl rh pl ph yl yh no_header_nil).
  - intros lo hi. pose proof (int16_le_range lo hi) as Hr.
    split; [exact Hr|]. split; [apply int16_le_mod|].
    split; [apply Qeq_refl|]. apply degrees_b64_exact. exact Hr.
  - vm_compute. reflexivity.
  - eexists. split; [vm_compute; reflexivity|]. vm_compute. auto.
  - intros F PF rl rh pl ph yl yh. apply V1_decode_short. simpl. lia.
  - intros F PF rl rh pl ph yl yh t1 t2 t3 t. apply V1_decode_frame11.
  - intros t1 t2 t3 t. unfold known_frame. rewrite V1_decode_frame11.
    vm_compute. reflexivity.
Qed.

(** The first version's decoder, cited by the claim, returns no reading on
    the known 8-byte vector: its guard [len(data) >= 11] is not met. *)
Lemma C1_counterexample :
  length known_frame = 8 /\
  V1.decode_witmotion (F:=spec_float) known_frame = Ok None /\
  V1.decode_witmotion (F:=spec_float) known_frame <>
    Ok (Some (B64.of_Z 90, B64.of_Z 0, B64.of_Z (-90))).
Proof.
  split; [reflexivity|]. split; [reflexivity|]. discriminate.
Qed.

(** C2, as the code has it.  The scanning decoder of [arena.py] returns
    the reading of the first position [i], counted from offset 0, with
    [data[i] = 0x55], [data[i+1] = 0x61] and [i + 8 <= len(data)].  Hence
    bytes in front of a frame that do not spell a header are skipped (in
    particular the prefix [0xAA, 0x00]), and whatever follows the first
    frame, further frames included, is not looked at.  In the first version
    the decoder looks at offset 0 only and asks for eleven bytes; the scan
    is in the callback, over the positions with eleven bytes from them on,
    and every frame found is stored, so that the LAST one stays: a frame of
    eleven bytes at the end of the buffer is the one stored whatever is in
    front of it, and a buffer of at most ten bytes, such as [0xAA, 0x00]
    followed by a bare 8-byte frame, stores nothing. *)
Theorem C2_decode_first_frame :
  forall (F : Type) (PF : PyFloat F),
    (forall (data : list byte) (i : nat),
        frame_at data i -> (forall j, j < i -> ~ frame_at data j) ->
        decode_witmotion data = Some (frame_reading data i))
    /\ (forall (g rest : list byte) (a b c d e f : byte),
          no_header g ->
          decode_witmotion (g ++ [x55; x61; a; b; c; d; e; f] ++ rest) =
          decode_witmotion [x55; x61; a; b; c; d; e; f])
    /\ (forall a b c d e f : byte,
          decode_witmotion ([xaa; x00] ++ [x55; x61; a; b; c; d; e; f]) =
          decode_witmotion [x55; x61; a; b; c; d; e; f])
    /\ (forall (rest : list byte) (a b c d e f : byte),
          decode_witmotion ([x55; x61; a; b; c; d; e; f] ++ rest) =
          decode_witmotion [x55; x61; a; b; c; d; e; f])
    /\ (forall data : list byte,
          V1.decode_witmotion (F:=F) data =
          Ok (if is_frame11_at data 0 then Some (frame_reading data 0) else None))
    /\ (forall (s : V1.SensorData F) (data : list byte),
          V1.callback s data =
          Ok (match last_frame11 data with
              | Some i => V1_stored (frame_reading data i)
              | None => s
              end))
    /\ (forall (s : V1.SensorData F) (g : list byte) (a b c d e f t1 t2 t3 : byte),
          V1.callback s (g ++ [x55; x61; a; b; c; d; e; f] ++ [t1; t2; t3]) =
          Ok (V1.mkSensorData (to_degrees (int16_le a b)) (to_degrees (int16_le c d))
                (to_degrees (int16_le e f)) true))
    /\ (forall (s : V1.SensorData F) (a b c d e f : byte),
          V1.decode_witmotion (F:=F) ([xaa; x00] ++ [x55; x61; a; b; c; d; e; f]) = Ok None /\
          V1.callback s ([xaa; x00] ++ [x55; x61; a; b; c; d; e; f]) = Ok s).
Proof.
  intros F PF.
  assert (Hone : forall a b c d e f : byte,
             decode_witmotion [x55; x61; a; b; c; d; e; f] =
             Some (to_degrees (int16_le a b), to_degrees (int16_le c d),
                   to_degrees (int16_le e f))).
  { intros. exact (@decode_after_garbage F PF [] [] a b c d e f no_header_nil). }
  split; [|split; [|split; [|split; [|split; [|split; [|split]]]]]].
  - intros data i. apply decode_first_frame.
  - intros g rest a b c d e f Hg. rewrite Hone. now apply decode_after_garbage.
  - intros a b c d e f. rewrite Hone.
    apply (@decode_after_garbage F PF [xaa; x00] []).
    intros [|[|[|i]]] [E0 E1]; simpl in *; discriminate.
  - intros rest a b c d e f. rewrite Hone.
    exact (@decode_after_garbage F PF [] rest a b c d e f no_header_nil).
  - intros data. apply V1_decode_spec.
  - intros s data. apply V1_callback_spec.
  - intros s g a b c d e f t1 t2 t3. apply V1_callback_frame11_end.
  - intros s a b c d e f. split.
    + apply V1_decode_short. simpl. lia.
    + apply V1_callback_short. simpl. lia.
Qed.

(** In the first version, cited by the claim, the prefix [0xAA, 0x00] in
    front of the known 8-byte frame leaves nothing to decode, although the
    frame alone is a frame for the scanning decoder; and of two frames in
    one notification the second one is stored, not the first. *)
Lemma C2_counterexample :
  let s0 := V1.mkSensorData (B64.of_Z 0) (B64.of_Z 0) (B64.of_Z 0) false in
  let second := [x55; x61; x00; xc0; x00; x40; x00; x00; x00; x00; x00] in
  decode_witmotion (F:=spec_float) ([xaa; x00] ++ known_frame) =
    Some (B64.of_Z 90, B64.of_Z 0, B64.of_Z (-90)) /\
  V1.decode_witmotion (F:=spec_float) ([xaa; x00] ++ known_frame) = Ok None /\
  V1.callback s0 ([xaa; x00] ++ known_frame) = Ok s0 /\
  V1.callback s0 ((known_frame ++ [x00; x00; x00]) ++ second) =
    Ok (V1.mkSensorData (B64.of_Z (-90)) (B64.of_Z 90) (B64.of_Z 0) true) /\
  V1.callback s0 ((known_frame ++ [x00; x00; x00]) ++ second) <>
    Ok (V1.mkSensorData (B64.of_Z 90) (B64.of_Z 0) (B64.of_Z (-90)) true).
Proof.
  intros s0 second.
  split; [vm_compute; reflexivity|]. split; [reflexivity|]. split; [reflexivity|].
  assert (E : V1.callback s0 ((known_frame ++ [x00; x00; x00]) ++ second) =
              Ok (V1.mkSensorData (B64.of_Z (-90)) (B64.of_Z 90) (B64.of_Z 0) true))
    by (vm_compute; reflexivity).
  split; [exact E|]. rewrite E. vm_compute. discriminate.
Qed.

Lemma C2_decode_first_frame_witness :
  let data := [xaa; x55; x00; x55] ++ known_frame
              ++ [x55; x61; x01; x00; x02; x00; x03; x00] in
  frame_at data 4 /\ (forall j, j < 4 -> ~ frame_at data j) /\
  decode_witmotion data = Some (B64.of_Z 90, B64.of_Z 0, B64.of_Z (-90)).
Proof.
  intros data.
  assert (Hf : frame_at data 4).
  { unfold frame_at. simpl. repeat split; auto. lia. }
  assert (Hmin : forall j, j < 4 -> ~ frame_at data j).
  { intros [|[|[|[|j]]]] Hj (E0 & E1 & _); simpl in *; try discriminate. lia. }
  split; [exact Hf|]. split; [exact Hmin|].
  rewrite (proj1 (C2_decode_first_frame PyFloat_b64) data 4 Hf Hmin).
  vm_compute. reflexivity.
Defined.

(** C3.  On every byte buffer the [try] block completes without raising, so
    the decoder never hands an exception to its caller; and when the buffer
    is shorter than 8 bytes, or no position holds a header with 8 bytes from
    it on, the result is [None]. *)
Theorem C3_decode_no_reading :
  forall (F : Type) (PF : PyFloat F) (data : list byte),
    (exists v, decode_body data = Ok v /\ decode_witmotion data = v)
    /\ (length data < 8 \/ (forall i, ~ frame_at data i) ->
        decode_witmotion data = None).
Proof.
  intros F PF data. split.
  - exists (decode_spec data). split.
    + apply decode_body_spec.
    + apply decode_witmotion_spec.
  - intros [Hshort|Hno]; apply decode_no_frame; [now apply short_no_frame | exact Hno].
Qed.

Lemma C3_decode_no_reading_witness :
  let data := [xaa; x00; x55; x61; x00; x40; x00; x00; x00] in
  (forall i, ~ frame_at data i) /\
  decode_witmotion (F:=spec_float) data = None.
Proof.
  intros data.
  assert (Hno : forall i, ~ frame_at data i).
  { intros [|[|[|i]]] (E0 & E1 & Hl); simpl in *; try discriminate; lia. }
  split; [exact Hno|].
  exact (proj2 (C3_decode_no_reading PyFloat_b64 data) (or_intror Hno)).
Defined.

(** C7, as the code has it.  For every signed 16-bit field value [v] the
    angle [v / 32768 * 180] lies in the interval closed at -180 and open at
    180: [-180 <= angle < 180], over the rationals and in binary64.  The
    lower end is reached by [v = -32768]; the largest angle, at
    [v = 32767], is [180 - 180/32768]. *)
Theorem C7_degrees_range :
  forall v : Z, int16 v ->
    (-180 <= to_degrees v /\ to_degrees v < 180)%Q
    /\ B64.leb (B64.of_Z (-180)) (to_degrees v) = true
    /\ B64.ltb (to_degrees v) (B64.of_Z 180) = true
    /\ (to_degrees (-32768) == -180 /\ to_degrees 32767 == 180 - 180 / 32768)%Q.
Proof.
  intros v Hv. split; [now apply degrees_Q_range|].
  pose proof (degrees_b64_range v Hv) as [Hl Hu].
  split; [exact Hl|]. split; [exact Hu|].
  split; vm_compute; reflexivity.
Qed.

Lemma C7_degrees_range_witness :
  int16 32767 /\
  (-180 <= to_degrees 32767 /\ to_degrees 32767 < 180)%Q.
Proof.
  assert (Hv : int16 32767) by (unfold int16; lia).
  split; [exact Hv|]. exact (proj1 (C7_degrees_range Hv)).
Defined.

(** The field value -32768 (payload bytes [0x00, 0x80]) is a signed 16-bit
    value whose angle is -180, which is not above -180: the interval open at
    -180 and closed at 180 does not contain it. *)
Lemma C7_counterexample :
  int16_le x00 x80 = (-32768)%Z /\
  int16 (-32768) /\
  ~ (-180 < to_degrees (-32768) /\ to_degrees (-32768) <= 180)%Q /\
  to_degrees (-32768) = B64.of_Z (-180) /\
  B64.ltb (B64.of_Z (-180)) (to_degrees (-32768)) = false.
Proof.
  split; [reflexivity|].
  split; [unfold int16; lia|]. split; [|split; vm_compute; reflexivity].
  intros [Hlt _]. vm_compute in Hlt. discriminate.
Qed.

(** ** The sensor state: reads, calibration *)

Section SensorFacts.
Context {F : Type} `{PyFloat F}.

Lemma sample_idle (s : SensorData F) :
  new_data s = false -> sample s = (s, None).
Proof. intros E. unfold sample. now rewrite E. Qed.

Lemma sample_clears (s : SensorData F) : new_data (fst (sample s)) = false.
Proof. unfold sample. destruct (new_data s) eqn:E; simpl; [reflexivity | exact E]. Qed.

Lemma sample_update (s : SensorData F) (r p y : F) :
  sample (update s r p y) =
  (mkSensorData r p y
     (ema (roll s) r) (ema (pitch s) p) (ema (yaw s) y)
     (offset_r s) (offset_p s) (offset_y s) false,
   Some (fsub (ema (roll s) r) (offset_r s),
         fsub (ema (pitch s) p) (offset_p s),
         fsub (ema (yaw s) y) (offset_y s))).
Proof. reflexivity. Qed.

End SensorFacts.

(** C4.  After a read, a second read with no [update] in between returns
    nothing and leaves the whole state (raw values, filter values, offsets,
    flag) as it is, and it still returns nothing when [calibrate] ran in
    between; more generally a read with the flag down does nothing.  The
    same holds for [update_view] of the unfiltered variant. *)
Theorem C4_sample_twice :
  forall (F : Type) (PF : PyFloat F),
    (forall s : SensorData F,
        new_data (fst (sample s)) = false /\
        sample (fst (sample s)) = (fst (sample s), None) /\
        snd (sample (calibrate (fst (sample s)))) = None)
    /\ (forall s : SensorData F, new_data s = false -> sample s = (s, None))
    /\ (forall s : Fixed.SensorData F,
          Fixed.update_view (fst (Fixed.update_view s)) =
          (fst (Fixed.update_view s), None)).
Proof.
  intros F PF. split; [|split].
  - intros s. split; [apply sample_clears|].
    split; [apply sample_idle, sample_clears|].
    rewrite sample_idle; [reflexivity|]. apply sample_clears.
  - intros s. apply sample_idle.
  - intros s. unfold Fixed.update_view.
    destruct (Fixed.new_data s) eqn:E; simpl; [reflexivity | now rewrite E].
Qed.

Lemma C4_sample_twice_witness :
  new_data (init (F:=spec_float)) = false /\
  sample (init (F:=spec_float)) = (init, None).
Proof.
  split; [reflexivity|].
  exact (proj1 (proj2 (C4_sample_twice PyFloat_b64)) init eq_refl).
Defined.

(** C8.  [calibrate] twice in a row gives the state that one [calibrate]
    gives: offsets, filter values, raw values and flag are the same.  This
    holds for the filtered state of [arena.py] and for the variants whose
    [calibrate] copies the current angles into the offsets. *)
Theorem C8_calibrate_idempotent :
  forall (F : Type) (PF : PyFloat F),
    (forall s : SensorData F, calibrate (calibrate s) = calibrate s)
    /\ (forall s : Fixed.SensorData F,
          Fixed.calibrate (Fixed.calibrate s) = Fixed.calibrate s)
    /\ (forall s : Qwen.SensorData F,
          Qwen.calibrate (Qwen.calibrate s) = Qwen.calibrate s).
Proof.
  intros F PF. split; [|split]; intros s; reflexivity.
Qed.

(** ** The filter over the rationals *)

Lemma alpha_b64 :
  SMOOTHING_ALPHA (F:=spec_float) = S754_finite false 5404319552844595 (-54).
Proof. vm_compute. reflexivity. Qed.

Lemma ema_Q (old raw : Q) :
  (ema old raw == old * (7 # 10) + raw * (3 # 10))%Q.
Proof. unfold ema, SMOOTHING_ALPHA, float_lit. simpl. field. Qed.

Lemma ema_Q_fix (x : Q) : (ema x x == x)%Q.
Proof. rewrite ema_Q. ring. Qed.

(** C5.  [update(10, 20, 30)], [calibrate()], [update(10, 20, 30)] and a read:
    from every starting state the read returns exactly (0.0, 0.0, 0.0) in
    binary64, and over the rationals it returns zero for every pose, not
    only this one.  [calibrate] copies the raw reading into the offsets and
    into the filter values, and leaves the raw reading and the flag alone.
    The unfiltered variant returns zero on the same sequence as well. *)
Theorem C5_calibrate_zeroes_pose :
  (forall s : SensorData spec_float,
      let ten := B64.of_Z 10 in let twenty := B64.of_Z 20 in let thirty := B64.of_Z 30 in
      snd (sample (update (calibrate (update s ten twenty thirty)) ten twenty thirty)) =
      Some (B64.of_Z 0, B64.of_Z 0, B64.of_Z 0))
  /\ (forall (s : SensorData Q) (a b c : Q),
         exists r, snd (sample (update (calibrate (update s a b c)) a b c)) = Some r /\
                   angles_Qeq r (0, 0, 0)%Q)
  /\ (forall (F : Type) (PF : PyFloat F) (s : SensorData F),
         offset_r (calibrate s) = raw_roll s /\
         offset_p (calibrate s) = raw_pitch s /\
         offset_y (calibrate s) = raw_yaw s /\
         roll (calibrate s) = raw_roll s /\
         pitch (calibrate s) = raw_pitch s /\
         yaw (calibrate s) = raw_yaw s /\
         raw_roll (calibrate s) = raw_roll s /\
         raw_pitch (calibrate s) = raw_pitch s /\
         raw_yaw (calibrate s) = raw_yaw s /\
         new_data (calibrate s) = new_data s)
  /\ (forall s : Fixed.SensorData spec_float,
         let ten := B64.of_Z 10 in let twenty := B64.of_Z 20 in let thirty := B64.of_Z 30 in
         snd (Fixed.update_view
                (Fixed.update (Fixed.calibrate (Fixed.update s ten twenty thirty))
                   ten twenty thirty)) =
         Some (B64.of_Z 0, B64.of_Z 0, B64.of_Z 0)).
Proof.
  split; [|split; [|split]].
  - intros s. vm_compute. reflexivity.
  - intros s a b c. rewrite sample_update. eexists. split; [reflexivity|].
    cbn [calibrate update roll pitch yaw offset_r offset_p offset_y
         raw_roll raw_pitch raw_yaw angles_Qeq].
    change (@fsub Q PyFloat_Q) with Qminus.
    rewrite !ema_Q_fix. repeat split; ring.
  - intros F PF s. repeat split.
  - intros s. vm_compute. reflexivity.
Qed.

(** ** Repeated rounds with a constant reading *)

Section FeedFacts.
Context {F : Type} `{PyFloat F}.
Variables r p y : F.




End FeedFacts.

Section Convergence.
Variable s : SensorData Q.
Hypothesis below : (roll s < 100)%Q.

Let x (n : nat) : Q := roll (feed n 100%Q 0%Q 0%Q s).




End Convergence.


Section FeedMore.
Context {F : Type} `{PyFloat F}.
Variables r p y : F.



End FeedMore.






(** ** The bounded queue *)

Section QueueFacts.
Context {F : Type} `{PyFloat F}.

Lemma enqueue_spec (q : list (angles (F:=F))) (a : angles (F:=F)) :
  length q <= 3 ->
  Clinkz.enqueue q a = Ok (if length q =? 3 then tl q ++ [a] else q ++ [a]).
Proof.
  intros Hl.
  destruct q as [|x1 [|x2 [|x3 [|x4 q]]]]; try reflexivity.
  simpl in Hl. lia.
Qed.

Lemma enqueue_length (q q' : list (angles (F:=F))) (a : angles (F:=F)) :
  length q <= 3 -> Clinkz.enqueue q a = Ok q' -> length q' <= 3.
Proof.
  intros Hl E. rewrite enqueue_spec in E by exact Hl. injection E as <-.
  destruct (Nat.eqb_spec (length q) 3) as [E3|N3]; rewrite length_app; simpl.
  - destruct q; simpl in *; lia.
  - lia.
Qed.

Lemma step_invariant (m : Clinkz.IMUManager F) (e : Clinkz.event) :
  length (Clinkz.data_queue m) <= 3 ->
  exists m', Clinkz.step m e = Ok m' /\ length (Clinkz.data_queue m') <= 3.
Proof.
  intros Hl. destruct e as [data| | |]; simpl.
  - unfold Clinkz.callback. destruct (decode_witmotion data) as [a|].
    + pose proof (@enqueue_spec (Clinkz.data_queue m) a Hl) as E. rewrite E. simpl.
      eexists. split; [reflexivity|]. simpl.
      apply (@enqueue_length (Clinkz.data_queue m) _ a Hl E).
    + exists m. auto.
  - eexists. split; [reflexivity|]. unfold Clinkz.update_view.
    destruct (Clinkz.data_queue m) as [|[[r p] y] q'] eqn:Eq; simpl.
    + rewrite Eq. simpl. lia.
    + destruct (Clinkz.offsets m) as [[o1 o2] o3]. simpl. simpl in Hl. lia.
  - eexists. split; [reflexivity|]. unfold Clinkz.key_c.
    destruct (Clinkz.data_queue m) as [|a q'] eqn:Eq; simpl.
    + rewrite Eq. simpl. lia.
    + simpl in Hl. lia.
  - eexists. split; [reflexivity|]. exact Hl.
Qed.

Lemma run_invariant (es : list Clinkz.event) (m : Clinkz.IMUManager F) :
  length (Clinkz.data_queue m) <= 3 ->
  exists m', Clinkz.run m es = Ok m' /\ length (Clinkz.data_queue m') <= 3.
Proof.
  revert m. induction es as [|e es IH]; intros m Hl; simpl.
  - exists m. auto.
  - destruct (@step_invariant m e Hl) as (m1 & E1 & Hl1). rewrite E1. simpl.
    now apply IH.
Qed.
End QueueFacts.

(** Contents and order of the queue. *)

Section QueueMore.
Context {F : Type} `{PyFloat F}.

Lemma lastn_short {A} (n : nat) (l : list A) : length l <= n -> lastn n l = l.
Proof.
  intros Hl. unfold lastn. replace (length l - n) with 0 by lia. reflexivity.
Qed.

Lemma lastn_length_le {A} (n : nat) (l : list A) : length (lastn n l) <= n.
Proof. unfold lastn. rewrite length_skipn. lia. Qed.

Lemma lastn_lastn_app {A} (n : nat) (l m : list A) :
  lastn n (lastn n l ++ m) = lastn n (l ++ m).
Proof.
  unfold lastn. rewrite !length_app, length_skipn.
  destruct (Nat.le_gt_cases (length l) n) as [Hle|Hgt].
  - replace (length l - n) with 0 by lia. simpl skipn.
    replace (length l - 0) with (length l) by lia. reflexivity.
  - replace (length l - (length l - n) + length m - n) with (length m) by lia.
    rewrite !skipn_app, length_skipn, skipn_skipn.
    replace (length m - (length l - (length l - n))) with (length m - n) by lia.
    replace (length l + length m - n - length l) with (length m - n) by lia.
    replace (length m + (length l - n)) with (length l + length m - n) by lia.
    reflexivity.
Qed.

Lemma enqueue_lastn (q : list (angles (F:=F))) (a : angles (F:=F)) :
  length q <= 3 -> Clinkz.enqueue q a = Ok (lastn 3 (q ++ [a])).
Proof.
  intros Hl. rewrite enqueue_spec by exact Hl.
  destruct q as [|x1 [|x2 [|x3 [|x4 q]]]]; try reflexivity.
  simpl in Hl. lia.
Qed.

Lemma clinkz_callback_spec (m : Clinkz.IMUManager F) (data : list byte) :
  length (Clinkz.data_queue m) <= 3 ->
  Clinkz.callback m data =
  Ok (match decode_witmotion data with
      | Some a =>
          Clinkz.mkIMUManager
            (if length (Clinkz.data_queue m) =? 3
             then tl (Clinkz.data_queue m) ++ [a]
             else Clinkz.data_queue m ++ [a])
            (Clinkz.offsets m)
      | None => m
      end).
Proof.
  intros Hl. unfold Clinkz.callback.
  destruct (decode_witmotion data) as [a|]; [|reflexivity].
  rewrite enqueue_spec by exact Hl. reflexivity.
Qed.

Lemma run_notifications_queue (ds : list (list byte)) (m : Clinkz.IMUManager F) :
  length (Clinkz.data_queue m) <= 3 ->
  Clinkz.run m (map Clinkz.Notify ds) =
  Ok (Clinkz.mkIMUManager (lastn 3 (Clinkz.data_queue m ++ readings ds))
        (Clinkz.offsets m)).
Proof.
  revert m. induction ds as [|d ds IH]; intros m Hl.
  - simpl. rewrite app_nil_r, lastn_short by exact Hl. now destruct m.
  - simpl. unfold Clinkz.callback, readings. simpl.
    destruct (decode_witmotion d) as [a|].
    + rewrite enqueue_lastn by exact Hl. simpl.
      rewrite IH by apply lastn_length_le. simpl.
      fold (readings ds). rewrite lastn_lastn_app, <- app_assoc. reflexivity.
    + simpl. apply IH. exact Hl.
Qed.

Lemma ticks_drain (q : list (angles (F:=F))) (o : angles (F:=F)) (k : nat) :
  clinkz_ticks (length q + k) (Clinkz.mkIMUManager q o) =
  (Clinkz.mkIMUManager [] o,
   map (fun a => Some (minus_offsets o a)) q ++ repeat None k).
Proof.
  induction q as [|[[r p] y] q IH].
  - induction k as [|k IHk]; [reflexivity|].
    simpl in *. rewrite IHk. reflexivity.
  - simpl length. simpl Nat.add.
    change (clinkz_ticks (S (length q + k)) (Clinkz.mkIMUManager ((r, p, y) :: q) o))
      with (let '(m1, a) := Clinkz.update_view (Clinkz.mkIMUManager ((r, p, y) :: q) o) in
            let '(m2, rest) := clinkz_ticks (length q + k) m1 in (m2, a :: rest)).
    unfold Clinkz.update_view. simpl.
    destruct o as [[o1 o2] o3]. simpl. rewrite IH. reflexivity.
Qed.
End QueueMore.

(** C9.  With a queue of at most 3 entries, the producer's enqueue step
    returns at once with a queue of at most 3 entries, and neither
    [get_nowait] nor [put_nowait] raises: below capacity the reading is
    appended; at capacity the oldest entry is removed first, so
    [x1, x2, x3] becomes [x2, x3, a].  From the empty queue of the initial
    manager, and from any state within the bound, every sequence of
    notifications, timer ticks and key presses runs through without an
    exception and keeps the queue within the bound.  The callback itself
    does this with every notification that decodes, and leaves the manager
    alone with one that does not: on a full queue [x1, x2, x3] a decoded
    reading [a] gives [x2, x3, a], and after any notifications the queue
    holds the last 3 entries of its old content followed by the decoded
    readings, oldest first. *)
Theorem C9_queue_bounded :
  forall (F : Type) (PF : PyFloat F),
    (forall (q : list (angles (F:=F))) (a : angles (F:=F)),
        length q <= Clinkz.maxsize ->
        exists q', Clinkz.enqueue q a = Ok q' /\
                   length q' <= Clinkz.maxsize /\
                   (length q < Clinkz.maxsize -> q' = q ++ [a]) /\
                   (length q = Clinkz.maxsize -> q' = tl q ++ [a]))
    /\ (forall x1 x2 x3 a : angles (F:=F),
          Clinkz.enqueue [x1; x2; x3] a = Ok [x2; x3; a])
    /\ (forall (es : list Clinkz.event) (m : Clinkz.IMUManager F),
          length (Clinkz.data_queue m) <= Clinkz.maxsize ->
          exists m', Clinkz.run m es = Ok m' /\
                     length (Clinkz.data_queue m') <= Clinkz.maxsize)
    /\ (forall es : list Clinkz.event,
          exists m', Clinkz.run Clinkz.init es = Ok m' /\
                     length (Clinkz.data_queue m') <= Clinkz.maxsize)
    /\ (forall (m : Clinkz.IMUManager F) (data : list byte),
          length (Clinkz.data_queue m) <= Clinkz.maxsize ->
          Clinkz.callback m data =
          Ok (match decode_witmotion data with
              | Some a =>
                  Clinkz.mkIMUManager
                    (if length (Clinkz.data_queue m) =? Clinkz.maxsize
                     then tl (Clinkz.data_queue m) ++ [a]
                     else Clinkz.data_queue m ++ [a])
                    (Clinkz.offsets m)
              | None => m
              end))
    /\ (forall (x1 x2 x3 a o : angles (F:=F)) (data : list byte),
          decode_witmotion data = Some a ->
          Clinkz.callback (Clinkz.mkIMUManager [x1; x2; x3] o) data =
          Ok (Clinkz.mkIMUManager [x2; x3; a] o))
    /\ (forall (m : Clinkz.IMUManager F) (ds : list (list byte)),
          length (Clinkz.data_queue m) <= Clinkz.maxsize ->
          Clinkz.run m (map Clinkz.Notify ds) =
          Ok (Clinkz.mkIMUManager
                (lastn Clinkz.maxsize (Clinkz.data_queue m ++ readings ds))
                (Clinkz.offsets m))).
Proof.
  intros F PF. unfold Clinkz.maxsize.
  split; [|split; [|split; [|split; [|split; [|split]]]]].
  - intros q a Hl. eexists. split; [now apply enqueue_spec|].
    split; [|split].
    + apply (@enqueue_length F q _ a Hl). now apply enqueue_spec.
    + intros Hlt. destruct (Nat.eqb_spec (length q) 3); [lia | reflexivity].
    + intros ->. reflexivity.
  - reflexivity.
  - intros es m. apply run_invariant.
  - intros es. apply run_invariant. simpl. lia.
  - intros m data Hl. now apply clinkz_callback_spec.
  - intros x1 x2 x3 a o data Hd.
    rewrite clinkz_callback_spec by (simpl; lia). rewrite Hd. reflexivity.
  - intros m ds Hl. now apply run_notifications_queue.
Qed.

Lemma C9_queue_bounded_witness :
  let a := (B64.of_Z 1, B64.of_Z 2, B64.of_Z 3) in
  let b := (B64.of_Z 90, B64.of_Z 0, B64.of_Z (-90)) in
  let o := (B64.of_Z 0, B64.of_Z 0, B64.of_Z 0) in
  length [a; a; a] <= Clinkz.maxsize /\
  (exists q', Clinkz.enqueue [a; a; a] b = Ok q' /\ q' = [a; a; b]) /\
  decode_witmotion known_frame = Some b /\
  Clinkz.callback (Clinkz.mkIMUManager [a; a; a] o) known_frame =
  Ok (Clinkz.mkIMUManager [a; a; b] o).
Proof.
  intros a b o.
  assert (Hl : length [a; a; a] <= Clinkz.maxsize) by (unfold Clinkz.maxsize; simpl; lia).
  assert (Hd : decode_witmotion known_frame = Some b) by (vm_compute; reflexivity).
  split; [exact Hl|]. split; [|split; [exact Hd|]].
  - destruct (proj1 (C9_queue_bounded PyFloat_b64) [a; a; a] b Hl)
      as (q' & E & _ & _ & Hfull).
    exists q'. split; [exact E|]. exact (Hfull eq_refl).
  - exact (proj1 (proj2 (proj2 (proj2 (proj2 (proj2 (C9_queue_bounded PyFloat_b64))))))
             a a a b o known_frame Hd).
Defined.

(** ** The moving average *)

Lemma lastn_all {A} (n : nat) (l : list A) : length l = n -> lastn n l = l.
Proof. intros <-. unfold lastn. now rewrite Nat.sub_diag. Qed.

Lemma lastn_drop_head {A} (n : nat) (a : A) (l : list A) :
  n <= length l -> lastn n (a :: l) = lastn n l.
Proof.
  intros Hl. unfold lastn. simpl length.
  replace (S (length l) - n) with (S (length l - n)) by lia. reflexivity.
Qed.

Section QwenFacts.
Context {F : Type} `{PyFloat F}.

Lemma deque_append_full (w : nat) (d : list F) (x : F) :
  length d = w -> 0 < w -> Qwen.deque_append w d x = tl d ++ [x].
Proof.
  intros Hl Hw. unfold Qwen.deque_append. rewrite length_app. simpl length.
  destruct (Nat.ltb_spec w (length d + 1)) as [_|Hge]; [|lia].
  destruct d as [|d0 d]; [simpl in Hl; lia | reflexivity].
Qed.

Lemma deque_append_length (w : nat) (d : list F) (x : F) :
  length d = w -> length (Qwen.deque_append w d x) = w.
Proof.
  intros Hl. unfold Qwen.deque_append. rewrite length_app. simpl length.
  destruct (Nat.ltb_spec w (length d + 1)) as [_|Hge]; [|lia].
  destruct d as [|d0 d]; simpl in *; [lia|]. rewrite length_app. simpl. lia.
Qed.

Lemma mean_five (d : list F) :
  length d = 5 -> Qwen.mean d = Ok (fdiv (Qwen.py_sum d) (float_of_int 5)).
Proof. intros Hl. unfold Qwen.mean. rewrite Hl. reflexivity. Qed.

Lemma shared_data_window5 : window5 (Qwen.shared_data (F:=F)).
Proof. repeat split. Qed.

Lemma add_raw_angles_spec (s : Qwen.SensorData F) (r p y : F) :
  window5 s ->
  exists s', Qwen.add_raw_angles s r p y = Ok s' /\
             window5 s' /\ means_of_buffers s' /\
             Qwen.roll_buffer s' = tl (Qwen.roll_buffer s) ++ [r] /\
             Qwen.pitch_buffer s' = tl (Qwen.pitch_buffer s) ++ [p] /\
             Qwen.yaw_buffer s' = tl (Qwen.yaw_buffer s) ++ [y].
Proof.
  intros (Hw & Hr & Hp & Hy). unfold Qwen.add_raw_angles. rewrite Hw.
  rewrite !mean_five by (apply deque_append_length; assumption).
  simpl. eexists. split; [reflexivity|].
  unfold window5, means_of_buffers. simpl.
  rewrite !deque_append_length by assumption.
  rewrite !deque_append_full by (assumption || lia).
  repeat split; assumption.
Qed.

Lemma add_all_spec (xs : list (angles (F:=F))) (s : Qwen.SensorData F) :
  window5 s ->
  exists s', Qwen.add_all s xs = Ok s' /\
             window5 s' /\
             Qwen.roll_buffer s' = lastn 5 (Qwen.roll_buffer s ++ rolls xs) /\
             Qwen.pitch_buffer s' = lastn 5 (Qwen.pitch_buffer s ++ pitches xs) /\
             Qwen.yaw_buffer s' = lastn 5 (Qwen.yaw_buffer s ++ yaws xs) /\
             (xs <> [] -> means_of_buffers s').
Proof.
  revert s. induction xs as [|[[r p] y] xs IH]; intros s Hs.
  - exists s. pose proof Hs as (_ & Hr & Hp & Hy).
    simpl. rewrite !app_nil_r, !lastn_all by assumption.
    split; [reflexivity|]. split; [exact Hs|].
    do 3 (split; [reflexivity|]). intros Hne. congruence.
  - destruct (add_raw_angles_spec r p y Hs) as (s1 & E1 & Hs1 & Hm1 & Br & Bp & By).
    destruct (IH s1 Hs1) as (s' & E' & Hs' & Cr & Cp & Cy & Hm').
    exists s'. simpl. rewrite E1. simpl.
    split; [exact E'|]. split; [exact Hs'|].
    pose proof Hs as (_ & Hr & Hp & Hy).
    assert (Hdrop : forall (b : list F) (x : F) (m : list F),
               length b = 5 ->
               lastn 5 ((tl b ++ [x]) ++ m) = lastn 5 (b ++ x :: m)).
    { intros b x m Hb. destruct b as [|b0 b]; [discriminate|].
      simpl tl. rewrite <- app_assoc. simpl app.
      rewrite lastn_drop_head; [reflexivity|].
      rewrite length_app. simpl in *. lia. }
    rewrite Cr, Cp, Cy, Br, Bp, By.
    rewrite !Hdrop by assumption.
    do 3 (split; [reflexivity|]).
    destruct xs as [|x xs'].
    + simpl in E'. injection E' as <-. intros _. exact Hm1.
    + intros _. apply Hm'. discriminate.
Qed.
End QwenFacts.

Lemma first_sample {F : Type} `{PyFloat F} (r p y : F) :
  let z := float_of_int 0 in
  exists s', Qwen.add_raw_angles Qwen.shared_data r p y = Ok s' /\
    Qwen.roll s' = fdiv (Qwen.py_sum [z; z; z; z; r]) (float_of_int 5) /\
    Qwen.pitch s' = fdiv (Qwen.py_sum [z; z; z; z; p]) (float_of_int 5) /\
    Qwen.yaw s' = fdiv (Qwen.py_sum [z; z; z; z; y]) (float_of_int 5).
Proof.
  intros z. eexists. split; [reflexivity|]. repeat split; reflexivity.
Qed.

Lemma py_sum_first_Q (r : Q) : (Qwen.py_sum [0; 0; 0; 0; r] == r)%Q.
Proof. unfold Qwen.py_sum. simpl. ring. Qed.

Lemma py_sum_first_b64 (r : spec_float) :
  is_zero r = false ->
  Qwen.py_sum [B64.of_Z 0; B64.of_Z 0; B64.of_Z 0; B64.of_Z 0; r] = r.
Proof. destruct r as [[|]|[|]| |[|] m e]; intros Hz; try discriminate; reflexivity. Qed.

Lemma lastn_app_enough {A} (n : nat) (l m : list A) :
  n <= length m -> lastn n (l ++ m) = lastn n m.
Proof.
  intros Hn. unfold lastn. rewrite length_app, skipn_app.
  rewrite skipn_all2 by lia.
  replace (length l + length m - n - length l) with (length m - n) by lia.
  reflexivity.
Qed.

(** C10.  The three buffers of [shared_data] start as five zeros.  Every
    sequence of [add_raw_angles] calls runs through (the division by the
    buffer length never fails), each buffer keeps exactly 5 entries and holds
    the last 5 entries of "five zeros, then the readings so far" (only
    readings once 5 have arrived), and after each call the three values are
    the sums of the buffers divided by 5.  On the fresh state the first call
    yields [(r/5, p/5, y/5)]: over the rationals, and in binary64 for
    readings other than a signed zero.  Over the rationals the mean of a
    buffer is [(e1 + e2 + e3 + e4 + e5) / 5]. *)
Theorem C10_moving_average :
  (forall (F : Type) (PF : PyFloat F),
      let zeros := repeat (float_of_int 0) 5 in
      (Qwen.roll_buffer Qwen.shared_data = zeros /\
       Qwen.pitch_buffer Qwen.shared_data = zeros /\
       Qwen.yaw_buffer Qwen.shared_data = zeros)
      /\ (forall xs : list (angles (F:=F)),
            exists s', Qwen.add_all Qwen.shared_data xs = Ok s' /\
              (length (Qwen.roll_buffer s') = 5 /\
               length (Qwen.pitch_buffer s') = 5 /\
               length (Qwen.yaw_buffer s') = 5) /\
              (Qwen.roll_buffer s' = lastn 5 (zeros ++ rolls xs) /\
               Qwen.pitch_buffer s' = lastn 5 (zeros ++ pitches xs) /\
               Qwen.yaw_buffer s' = lastn 5 (zeros ++ yaws xs)) /\
              (5 <= length xs ->
               Qwen.roll_buffer s' = lastn 5 (rolls xs) /\
               Qwen.pitch_buffer s' = lastn 5 (pitches xs) /\
               Qwen.yaw_buffer s' = lastn 5 (yaws xs)) /\
              (xs <> [] -> means_of_buffers s')))
  /\ (forall r p y : Q,
        exists s', Qwen.add_raw_angles Qwen.shared_data r p y = Ok s' /\
          (Qwen.roll s' == r / 5 /\ Qwen.pitch s' == p / 5 /\ Qwen.yaw s' == y / 5)%Q)
  /\ (forall e1 e2 e3 e4 e5 : Q,
        exists m, Qwen.mean [e1; e2; e3; e4; e5] = Ok m /\
                  (m == (e1 + e2 + e3 + e4 + e5) / 5)%Q)
  /\ (forall r p y : spec_float,
        is_zero r = false -> is_zero p = false -> is_zero y = false ->
        exists s', Qwen.add_raw_angles Qwen.shared_data r p y = Ok s' /\
          Qwen.roll s' = B64.div r (B64.of_Z 5) /\
          Qwen.pitch s' = B64.div p (B64.of_Z 5) /\
          Qwen.yaw s' = B64.div y (B64.of_Z 5)).
Proof.
  split; [|split; [|split]].
  - intros F PF zeros. split; [repeat split|].
    intros xs.
    destruct (@add_all_spec F PF xs Qwen.shared_data shared_data_window5)
      as (s' & E & (_ & Lr & Lp & Ly) & Br & Bp & By & Hm).
    exists s'. split; [exact E|]. split; [auto|]. split; [auto|]. split; [|exact Hm].
    intros H5. rewrite Br, By, Bp.
    change (Qwen.roll_buffer Qwen.shared_data) with zeros.
    change (Qwen.pitch_buffer Qwen.shared_data) with zeros.
    change (Qwen.yaw_buffer Qwen.shared_data) with zeros.
    rewrite !lastn_app_enough; auto; unfold rolls, pitches, yaws; rewrite length_map; exact H5.
  - intros r p y.
    destruct (@first_sample Q PyFloat_Q r p y) as (s' & E & Er & Ep & Ey).
    exists s'. split; [exact E|]. rewrite Er, Ep, Ey.
    change (@fdiv Q PyFloat_Q) with Qdiv.
    change (@float_of_int Q PyFloat_Q 0) with 0%Q.
    change (@float_of_int Q PyFloat_Q 5) with 5%Q.
    rewrite !py_sum_first_Q. repeat split; reflexivity.
  - intros e1 e2 e3 e4 e5. eexists. split; [reflexivity|].
    unfold Qwen.py_sum. simpl. field.
  - intros r p y Hr Hp Hy.
    destruct (@first_sample spec_float PyFloat_b64 r p y) as (s' & E & Er & Ep & Ey).
    exists s'. split; [exact E|]. rewrite Er, Ep, Ey.
    change (@float_of_int spec_float PyFloat_b64) with B64.of_Z.
    rewrite !py_sum_first_b64 by assumption. repeat split.
Qed.

Lemma C10_moving_average_witness :
  let r := B64.of_Z 10 in let p := B64.of_Z (-20) in let y := B64.of_Z 30 in
  is_zero r = false /\ is_zero p = false /\ is_zero y = false /\
  exists s', Qwen.add_raw_angles Qwen.shared_data r p y = Ok s' /\
    Qwen.roll s' = B64.of_Z 2 /\ Qwen.pitch s' = B64.of_Z (-4) /\ Qwen.yaw s' = B64.of_Z 6.
Proof.
  intros r p y. split; [reflexivity|]. split; [reflexivity|]. split; [reflexivity|].
  destruct (proj2 (proj2 (proj2 C10_moving_average)) r p y eq_refl eq_refl eq_refl)
    as (s' & E & Er & Ep & Ey).
  exists s'. split; [exact E|].
  rewrite Er, Ep, Ey. repeat split; vm_compute; reflexivity.
Defined.

(** ** Side remarks on the variants *)

(** The guard is what makes the second read a no-op: [get_smoothed_angles]
    itself advances the filter whenever it is called. *)
Lemma get_smoothed_angles_unguarded :
  let s := mkSensorData 10%Q 0%Q 0%Q 0%Q 0%Q 0%Q 0%Q 0%Q 0%Q false in
  new_data s = false /\ (roll (fst (get_smoothed_angles s)) == 3)%Q.
Proof. split; [reflexivity|]. vm_compute. reflexivity. Qed.

(** The producer of [arena.py] on the known vector. *)
Lemma callback_known_frame (s : SensorData spec_float) :
  callback s known_frame = update s (B64.of_Z 90) (B64.of_Z 0) (B64.of_Z (-90)).
Proof. reflexivity. Qed.

(** The first version's decoder rejects a bare 8-byte frame, accepts it once
    three more bytes follow, and its callback applies every frame of a
    notification, so that the last one stays. *)
Lemma V1_decode_needs_eleven :
  V1.decode_witmotion (F:=spec_float) known_frame = Ok None /\
  V1.decode_witmotion (known_frame ++ [x00; x00; x00]) =
  Ok (Some (B64.of_Z 90, B64.of_Z 0, B64.of_Z (-90))).
Proof. split; vm_compute; reflexivity. Qed.

Lemma V1_callback_last_frame (s : V1.SensorData spec_float) :
  V1.callback s ((known_frame ++ [x00; x00; x00]) ++
                 [x55; x61; x00; xc0; x00; x40; x00; x00; x00; x00; x00]) =
  Ok (V1.mkSensorData (B64.of_Z (-90)) (B64.of_Z 90) (B64.of_Z 0) true).
Proof. vm_compute. reflexivity. Qed.

(** * Further properties of the code *)

(** ** The decoder *)

Section DecoderMore.
Context {F : Type} `{PyFloat F}.

Lemma decode_some_frame (data : list byte) (a : angles (F:=F)) :
  decode_witmotion data = Some a ->
  exists i, first_frame data = Some i /\ a = frame_reading data i.
Proof.
  rewrite decode_witmotion_spec. unfold decode_spec.
  destruct (first_frame data) as [i|]; [|discriminate].
  intros [= <-]. exists i. auto.
Qed.

Lemma frame_at_app (d1 d2 : list byte) (i : nat) :
  frame_at d1 i -> frame_at (d1 ++ d2) i.
Proof.
  intros (E0 & E1 & Hl). unfold frame_at.
  rewrite !nth_error_app1, length_app by lia. repeat split; auto. lia.
Qed.

Lemma frame_at_app_inv (d1 d2 : list byte) (i j : nat) :
  i + 8 <= length d1 -> j < i -> frame_at (d1 ++ d2) j -> frame_at d1 j.
Proof.
  intros Hi Hj (E0 & E1 & _). unfold frame_at.
  rewrite !nth_error_app1 in * by lia. repeat split; auto. lia.
Qed.

Lemma frame_reading_app (d1 d2 : list byte) (i : nat) :
  i + 8 <= length d1 ->
  frame_reading (F:=F) (d1 ++ d2) i = frame_reading d1 i.
Proof.
  intros Hi. unfold frame_reading. rewrite !app_nth1 by lia. reflexivity.
Qed.
End DecoderMore.

(** X1.  The decoder returns a reading exactly when some position holds a
    complete frame: [None] if and only if there is none, and a returned
    reading is that of a frame position in a buffer of at least 8 bytes. *)
Theorem X1_decode_some_iff_frame :
  forall (F : Type) (PF : PyFloat F) (data : list byte),
    (decode_witmotion data = None <-> forall i, ~ frame_at data i)
    /\ (forall a, decode_witmotion data = Some a ->
          8 <= length data /\
          exists i, frame_at data i /\ (forall j, j < i -> ~ frame_at data j) /\
                    a = frame_reading data i).
Proof.
  intros F PF data. split.
  - split; [|apply decode_no_frame].
    intros Hn. apply first_frame_none.
    rewrite decode_witmotion_spec in Hn. unfold decode_spec in Hn.
    destruct (first_frame data); [discriminate | reflexivity].
  - intros a Ha. destruct (decode_some_frame _ Ha) as (i & Hi & ->).
    apply first_frame_some in Hi. destruct Hi as [Hf Hmin].
    split; [destruct Hf as (_ & _ & Hl); lia|].
    exists i. auto.
Qed.

Lemma X1_decode_some_iff_frame_witness :
  decode_witmotion (F:=spec_float) ([xaa] ++ known_frame) =
    Some (B64.of_Z 90, B64.of_Z 0, B64.of_Z (-90)) /\
  8 <= length ([xaa] ++ known_frame).
Proof.
  assert (E : decode_witmotion (F:=spec_float) ([xaa] ++ known_frame) =
              Some (B64.of_Z 90, B64.of_Z 0, B64.of_Z (-90)))
    by (vm_compute; reflexivity).
  split; [exact E|].
  exact (proj1 (proj2 (X1_decode_some_iff_frame PyFloat_b64 _) _ E)).
Defined.

(** X2.  Whatever bytes arrive, each angle of a decoded reading lies in
    [[-180, 180)]: over the rationals and in binary64. *)
Theorem X2_decoded_angles_in_range :
  (forall (data : list byte) (r p y : Q),
      decode_witmotion data = Some (r, p, y) ->
      (-180 <= r /\ r < 180)%Q /\ (-180 <= p /\ p < 180)%Q /\
      (-180 <= y /\ y < 180)%Q)
  /\ (forall (data : list byte) (r p y : spec_float),
        decode_witmotion data = Some (r, p, y) ->
        let ok v := B64.leb (B64.of_Z (-180)) v = true /\
                    B64.ltb v (B64.of_Z 180) = true in
        ok r /\ ok p /\ ok y).
Proof.
  split.
  - intros data r p y Hd. destruct (decode_some_frame _ Hd) as (i & _ & E).
    unfold frame_reading in E. injection E as -> -> ->.
    repeat split; apply degrees_Q_range; apply int16_le_range.
  - intros data r p y Hd ok. destruct (decode_some_frame _ Hd) as (i & _ & E).
    unfold frame_reading in E. injection E as -> -> ->.
    unfold ok. repeat split; apply degrees_b64_range; apply int16_le_range.
Qed.

Lemma X2_decoded_angles_in_range_witness :
  decode_witmotion (F:=spec_float) [x55; x61; xff; x7f; x00; x80; x01; x00] =
    Some (to_degrees 32767, to_degrees (-32768), to_degrees 1) /\
  B64.ltb (to_degrees 32767) (B64.of_Z 180) = true /\
  B64.leb (B64.of_Z (-180)) (to_degrees (-32768)) = true.
Proof.
  assert (E : decode_witmotion (F:=spec_float) [x55; x61; xff; x7f; x00; x80; x01; x00] =
              Some (to_degrees 32767, to_degrees (-32768), to_degrees 1))
    by reflexivity.
  split; [exact E|].
  destruct (proj2 X2_decoded_angles_in_range _ _ _ _ E) as ((_ & H1) & (H2 & _) & _).
  split; [exact H1 | exact H2].
Defined.

(** X3.  Bytes that arrive after a buffer already decodes do not change
    its reading: a reading of [d1] is the reading of [d1 ++ d2]. *)
Theorem X3_decode_stable_under_append :
  forall (F : Type) (PF : PyFloat F) (d1 d2 : list byte) (a : angles (F:=F)),
    decode_witmotion d1 = Some a -> decode_witmotion (d1 ++ d2) = Some a.
Proof.
  intros F PF d1 d2 a Ha. destruct (decode_some_frame _ Ha) as (i & Hi & ->).
  apply first_frame_some in Hi. destruct Hi as [Hf Hmin].
  pose proof Hf as (_ & _ & Hl).
  rewrite (@decode_first_frame F PF (d1 ++ d2) i).
  - now rewrite frame_reading_app.
  - now apply frame_at_app.
  - intros j Hj Hfj. apply (Hmin j Hj). now apply (@frame_at_app_inv d1 d2 i j).
Qed.

Lemma X3_decode_stable_under_append_witness :
  decode_witmotion (F:=spec_float) known_frame =
    Some (B64.of_Z 90, B64.of_Z 0, B64.of_Z (-90)) /\
  decode_witmotion (F:=spec_float) (known_frame ++ [x55; x61; x55; x61]) =
    Some (B64.of_Z 90, B64.of_Z 0, B64.of_Z (-90)).
Proof.
  assert (E : decode_witmotion (F:=spec_float) known_frame =
              Some (B64.of_Z 90, B64.of_Z 0, B64.of_Z (-90)))
    by (vm_compute; reflexivity).
  split; [exact E|].
  exact (X3_decode_stable_under_append PyFloat_b64 known_frame
           [x55; x61; x55; x61] E).
Defined.

Lemma int16_le_inj (a b a' b' : byte) :
  int16_le a b = int16_le a' b' -> a = a' /\ b = b'.
Proof.
  intros E. pose proof (int16_le_mod a b) as H1. pose proof (int16_le_mod a' b') as H2.
  rewrite E in H1. rewrite H1 in H2.
  pose proof (byte_val_range a). pose proof (byte_val_range b).
  pose proof (byte_val_range a'). pose proof (byte_val_range b').
  split; apply byte_val_inj; lia.
Qed.

Lemma to_degrees_Q_inj (v w : Z) :
  (to_degrees v == to_degrees w)%Q -> v = w.
Proof.
  intros E. apply inject_Z_injective.
  assert (Ev : (to_degrees v == inject_Z v * (45 # 8192))%Q)
    by (unfold to_degrees; simpl; field).
  assert (Ew : (to_degrees w == inject_Z w * (45 # 8192))%Q)
    by (unfold to_degrees; simpl; field).
  rewrite Ev, Ew in E. lra.
Qed.

Lemma to_degrees_b64_inj (v w : Z) :
  int16 v -> int16 w ->
  to_degrees (F:=spec_float) v = to_degrees w -> v = w.
Proof.
  intros Hv Hw E.
  destruct (degrees_b64_exact v Hv) as (q1 & E1 & Q1).
  destruct (degrees_b64_exact w Hw) as (q2 & E2 & Q2).
  rewrite E, E2 in E1. injection E1 as <-.
  apply to_degrees_Q_inj. unfold to_degrees. simpl.
  rewrite <- Q1, <- Q2. reflexivity.
Qed.

Lemma some_triple_inj {A} (x1 x2 x3 y1 y2 y3 : A) :
  Some (x1, x2, x3) = Some (y1, y2, y3) -> x1 = y1 /\ x2 = y2 /\ x3 = y3.
Proof. intros [= -> -> ->]. auto. Qed.

(** X4.  Decoding loses nothing: two 8-byte frames with the same reading
    have the same six payload bytes, in binary64 and over the rationals. *)
Theorem X4_decode_injective :
  forall (a b c d e f a' b' c' d' e' f' : byte),
    (decode_witmotion (F:=spec_float) [x55; x61; a; b; c; d; e; f] =
     decode_witmotion [x55; x61; a'; b'; c'; d'; e'; f'] ->
     [a; b; c; d; e; f] = [a'; b'; c'; d'; e'; f'])
    /\ (decode_witmotion (F:=Q) [x55; x61; a; b; c; d; e; f] =
        decode_witmotion [x55; x61; a'; b'; c'; d'; e'; f'] ->
        [a; b; c; d; e; f] = [a'; b'; c'; d'; e'; f']).
Proof.
  intros a b c d e f a' b' c' d' e' f'. split; intros E.
  - rewrite (@decode_after_garbage spec_float _ [] [] a b c d e f no_header_nil) in E.
    rewrite (@decode_after_garbage spec_float _ [] [] a' b' c' d' e' f' no_header_nil) in E.
    apply some_triple_inj in E. destruct E as (E1 & E2 & E3).
    apply to_degrees_b64_inj in E1, E2, E3; try apply int16_le_range.
    apply int16_le_inj in E1, E2, E3.
    destruct E1 as [-> ->], E2 as [-> ->], E3 as [-> ->]. reflexivity.
  - rewrite (@decode_after_garbage Q _ [] [] a b c d e f no_header_nil) in E.
    rewrite (@decode_after_garbage Q _ [] [] a' b' c' d' e' f' no_header_nil) in E.
    apply some_triple_inj in E. destruct E as (E1 & E2 & E3).
    assert (Q1 : (to_degrees (int16_le a b) == to_degrees (int16_le a' b'))%Q)
      by (rewrite E1; reflexivity).
    assert (Q2 : (to_degrees (int16_le c d) == to_degrees (int16_le c' d'))%Q)
      by (rewrite E2; reflexivity).
    assert (Q3 : (to_degrees (int16_le e f) == to_degrees (int16_le e' f'))%Q)
      by (rewrite E3; reflexivity).
    apply to_degrees_Q_inj in Q1, Q2, Q3.
    apply int16_le_inj in Q1, Q2, Q3.
    destruct Q1 as [-> ->], Q2 as [-> ->], Q3 as [-> ->]. reflexivity.
Qed.

Lemma X4_decode_injective_witness :
  decode_witmotion (F:=spec_float) known_frame = decode_witmotion known_frame /\
  [x00; x40; x00; x00; x00; xc0] = [x00; x40; x00; x00; x00; xc0].
Proof.
  split; [reflexivity|].
  exact (proj1 (X4_decode_injective x00 x40 x00 x00 x00 xc0
                  x00 x40 x00 x00 x00 xc0) eq_refl).
Defined.

(** ** The shared state under events *)

Section EventFacts.
Context {F : Type} `{PyFloat F}.

Lemma update_update (s : SensorData F) (r p y r' p' y' : F) :
  update (update s r p y) r' p' y' = update s r' p' y'.
Proof. reflexivity. Qed.

Lemma last_reading_app (ds : list (list byte)) (d : list byte) :
  last_reading (F:=F) (ds ++ [d]) =
  match decode_witmotion d with
  | Some a => Some a
  | None => last_reading ds
  end.
Proof. unfold last_reading. rewrite fold_left_app. reflexivity. Qed.

Lemma run_notifications (s : SensorData F) (ds : list (list byte)) :
  sensor_run s (map Notification ds) =
  match last_reading ds with
  | Some (r, p, y) => update s r p y
  | None => s
  end.
Proof.
  induction ds as [|d ds IH] using rev_ind; [reflexivity|].
  rewrite map_app, last_reading_app. unfold sensor_run in *.
  rewrite fold_left_app, IH. simpl. unfold callback.
  destruct (decode_witmotion d) as [[[r p] y]|]; [|reflexivity].
  destruct (last_reading ds) as [[[r0 p0] y0]|]; reflexivity.
Qed.
End EventFacts.

(** X5.  Of the notifications that arrive between two reads only the last
    one that decodes counts: the state after them is the state before with
    that reading as raw values and the flag up, and it is the state before,
    flag included, when none of them decodes.  Filter values and offsets do
    not move. *)
Theorem X5_last_notification_counts :
  forall (F : Type) (PF : PyFloat F) (s : SensorData F) (ds : list (list byte)),
    let s' := sensor_run s (map Notification ds) in
    (forall r p y, last_reading ds = Some (r, p, y) -> s' = update s r p y)
    /\ (last_reading ds = None -> s' = s)
    /\ ((forall d, In d ds -> forall i, ~ frame_at d i) -> s' = s)
    /\ (roll s', pitch s', yaw s') = (roll s, pitch s, yaw s)
    /\ offsets_of s' = offsets_of s.
Proof.
  intros F PF s ds s'. unfold s'. rewrite run_notifications.
  split; [|split; [|split; [|split]]].
  - intros r p y ->. reflexivity.
  - intros ->. reflexivity.
  - intros Hno.
    assert (E : last_reading (F:=F) ds = None).
    { induction ds as [|d ds IH] using rev_ind; [reflexivity|].
      rewrite last_reading_app.
      rewrite (@decode_no_frame F PF d) by (apply Hno, in_or_app; right; now left).
      apply IH. intros d' Hd'. apply Hno, in_or_app. now left. }
    now rewrite E.
  - destruct (last_reading ds) as [[[r p] y]|]; reflexivity.
  - destruct (last_reading ds) as [[[r p] y]|]; reflexivity.
Qed.

Lemma X5_last_notification_counts_witness :
  let ds := [known_frame; [x55; x61; x00]; [x55; x61; x00; xc0; x00; x00; x00; x40]; []] in
  last_reading ds = Some (B64.of_Z (-90), B64.of_Z 0, B64.of_Z 90) /\
  sensor_run init (map Notification ds) =
  update init (B64.of_Z (-90)) (B64.of_Z 0) (B64.of_Z 90).
Proof.
  intros ds.
  assert (E : last_reading ds = Some (B64.of_Z (-90), B64.of_Z 0, B64.of_Z 90))
    by (vm_compute; reflexivity).
  split; [exact E|].
  exact (proj1 (X5_last_notification_counts PyFloat_b64 init ds) _ _ _ E).
Defined.

(** ** Bounds on the filter *)

Lemma ema_within (lo hi old raw : Q) :
  (lo <= old <= hi)%Q -> (lo <= raw <= hi)%Q -> (lo <= ema old raw <= hi)%Q.
Proof. intros Ho Hr. rewrite ema_Q. lra. Qed.

Lemma within_triple (lo hi r p y : Q) :
  (lo <= r <= hi)%Q -> (lo <= p <= hi)%Q -> (lo <= y <= hi)%Q ->
  within lo hi (r, p, y).
Proof. unfold within. auto. Qed.

Lemma step_within (lo hi : Q) (s : SensorData Q) (e : sensor_event) :
  (forall data a, e = Notification data -> decode_witmotion data = Some a ->
                  within lo hi a) ->
  state_within lo hi s /\ within lo hi (offsets_of s) ->
  state_within lo hi (sensor_step s e) /\ within lo hi (offsets_of (sensor_step s e)).
Proof.
  intros Hd [[Hraw Hfil] Hoff].
  pose proof Hraw as (R1 & R2 & R3). pose proof Hfil as (F1 & F2 & F3).
  destruct e as [data| |]; cbn [sensor_step].
  - unfold callback. destruct (decode_witmotion data) as [[[r p] y]|] eqn:E.
    + specialize (Hd data _ eq_refl E).
      split; [split|]; [exact Hd | exact Hfil | exact Hoff].
    + split; [split|]; assumption.
  - unfold sample. destruct (new_data s).
    + split; [split|]; [exact Hraw | | exact Hoff].
      apply within_triple; apply ema_within; assumption.
    + split; [split|]; assumption.
  - split; [split|]; assumption.
Qed.

Lemma decoded_within_180 (data : list byte) (a : Q * Q * Q) :
  decode_witmotion data = Some a -> within (-180) 180 a.
Proof.
  intros Hd. destruct (decode_some_frame _ Hd) as (i & _ & ->).
  unfold frame_reading.
  apply within_triple;
    match goal with
    | |- context [to_degrees ?v] =>
        pose proof (@degrees_Q_range v (int16_le_range _ _)) as [Hl Hu];
        split; [exact Hl | apply Qlt_le_weak; exact Hu]
    end.
Qed.

(** X6.  From the initial state, whatever notifications, timer ticks and
    calibrations happen in whatever order, the raw values, the filter values
    and the offsets stay within [[-180, 180]], and every read returns
    angles within [[-360, 360]] (rational arithmetic). *)
Theorem X6_state_stays_in_range :
  forall es : list (sensor_event),
    let s := sensor_run (init (F:=Q)) es in
    state_within (-180) 180 s
    /\ within (-180) 180 (offsets_of s)
    /\ (forall a, snd (sample s) = Some a -> within (-360) 360 a).
Proof.
  intros es s.
  assert (Inv : state_within (-180) 180 s /\ within (-180) 180 (offsets_of s)).
  { unfold s. induction es as [|e es IH] using rev_ind.
    - assert (Z0 : (-180 <= 0 <= 180)%Q) by (split; discriminate).
      split; [split|]; apply within_triple; exact Z0.
    - unfold sensor_run in *. rewrite fold_left_app.
      cbn [fold_left].
      apply step_within; [|exact IH].
      intros data a _. apply decoded_within_180. }
  destruct Inv as [[Hraw Hfil] Hoff].
  split; [split; assumption|]. split; [assumption|].
  intros a. unfold sample. destruct (new_data s); [|discriminate].
  intros E.
  assert (Ea : a = ((ema (roll s) (raw_roll s) - offset_r s)%Q,
                    (ema (pitch s) (raw_pitch s) - offset_p s)%Q,
                    (ema (yaw s) (raw_yaw s) - offset_y s)%Q))
    by (injection E as <-; reflexivity).
  rewrite Ea. clear E Ea.
  destruct Hraw as (R1 & R2 & R3), Hfil as (F1 & F2 & F3), Hoff as (O1 & O2 & O3).
  pose proof (@ema_within (-180) 180 _ _ F1 R1) as E1.
  pose proof (@ema_within (-180) 180 _ _ F2 R2) as E2.
  pose proof (@ema_within (-180) 180 _ _ F3 R3) as E3.
  apply within_triple; lra.
Qed.

(** ** The step response in closed form *)

Lemma feed_axes (n : nat) (r p y : Q) (s : SensorData Q) :
  roll (feed (S n) r p y s) = ema (roll (feed n r p y s)) r /\
  pitch (feed (S n) r p y s) = ema (pitch (feed n r p y s)) p /\
  yaw (feed (S n) r p y s) = ema (yaw (feed n r p y s)) y.
Proof. repeat split. Qed.

Lemma X6_state_stays_in_range_witness :
  exists a,
    snd (sample (sensor_run (init (F:=Q)) [Notification known_frame; KeyPressC;
                                           Notification known_frame])) = Some a /\
    within (-360) 360 a.
Proof.
  eexists. split; [reflexivity|].
  apply (proj2 (proj2 (X6_state_stays_in_range
                         [Notification known_frame; KeyPressC;
                          Notification known_frame]))).
  reflexivity.
Defined.

Lemma Qpower_succ (a : Q) (n : nat) :
  (a ^ Z.of_nat (S n) == a * a ^ Z.of_nat n)%Q.
Proof.
  rewrite Nat2Z.inj_succ. unfold Z.succ.
  destruct n as [|n].
  - simpl. ring.
  - rewrite Qpower_plus' by lia. simpl (a ^ 1)%Q. ring.
Qed.

Lemma feed_closed_form :
  forall (s : SensorData Q) (r p y : Q) (n : nat),
    let s' := feed n r p y s in
    (roll s' == r + (roll s - r) * (7 # 10) ^ Z.of_nat n)%Q
    /\ (pitch s' == p + (pitch s - p) * (7 # 10) ^ Z.of_nat n)%Q
    /\ (yaw s' == y + (yaw s - y) * (7 # 10) ^ Z.of_nat n)%Q.
Proof.
  intros s r p y n. cbv zeta. induction n as [|n (IH1 & IH2 & IH3)].
  - simpl. repeat split; ring.
  - destruct (feed_axes n r p y s) as (E1 & E2 & E3).
    rewrite E1, E2, E3, !ema_Q, IH1, IH2, IH3, !Qpower_succ.
    repeat split; ring.
Qed.

(** X7.  With a constant reading [(r, p, y)], after [n] rounds of update and
    read each filter value is the reading plus the initial distance times
    [(7/10)^n] (rational arithmetic). *)
Theorem X7_step_response :
  forall (s : SensorData Q) (r p y : Q) (n : nat),
    let s' := feed n r p y s in
    (roll s' == r + (roll s - r) * (7 # 10) ^ Z.of_nat n)%Q
    /\ (pitch s' == p + (pitch s - p) * (7 # 10) ^ Z.of_nat n)%Q
    /\ (yaw s' == y + (yaw s - y) * (7 # 10) ^ Z.of_nat n)%Q.
Proof. intros s r p y n. apply feed_closed_form. Qed.

(** X8.  Calibration zeroes the pose for good: after [update(a, b, c)] and
    [calibrate()], as long as the same reading keeps arriving every read
    returns zero on all three axes; and [calibrate()] with an unread reading
    pending makes the next read return zero (rational arithmetic). *)
Theorem X8_calibrated_pose_reads_zero :
  (forall (s : SensorData Q) (a b c : Q) (n : nat),
      exists r,
        snd (sample (update (feed n a b c (calibrate (update s a b c))) a b c)) = Some r /\
        angles_Qeq r (0, 0, 0)%Q)
  /\ (forall s : SensorData Q, new_data s = true ->
        exists r, snd (sample (calibrate s)) = Some r /\ angles_Qeq r (0, 0, 0)%Q).
Proof.
  split.
  - intros s a b c n. rewrite sample_update. eexists. split; [reflexivity|].
    set (s0 := calibrate (update s a b c)).
    destruct (feed_closed_form s0 a b c n) as (E1 & E2 & E3).
    assert (O : offsets_of (feed n a b c s0) = (a, b, c)).
    { clear. induction n as [|n IH]; [reflexivity | exact IH]. }
    unfold offsets_of in O. injection O as O1 O2 O3.
    unfold angles_Qeq. change (@fsub Q PyFloat_Q) with Qminus.
    rewrite O1, O2, O3, !ema_Q, E1, E2, E3.
    change (roll s0) with a. change (pitch s0) with b. change (yaw s0) with c.
    repeat split; ring.
  - intros s Hs.
    exists ((ema (raw_roll s) (raw_roll s) - raw_roll s)%Q,
            (ema (raw_pitch s) (raw_pitch s) - raw_pitch s)%Q,
            (ema (raw_yaw s) (raw_yaw s) - raw_yaw s)%Q).
    split.
    + unfold sample. change (new_data (calibrate s)) with (new_data s).
      rewrite Hs. reflexivity.
    + unfold angles_Qeq. rewrite !ema_Q_fix. repeat split; ring.
Qed.

Lemma X8_calibrated_pose_reads_zero_witness :
  new_data (update (init (F:=Q)) 10%Q 20%Q 30%Q) = true /\
  exists r, snd (sample (calibrate (update init 10%Q 20%Q 30%Q))) = Some r /\
            angles_Qeq r (0, 0, 0)%Q.
Proof.
  split; [reflexivity|].
  exact (proj2 X8_calibrated_pose_reads_zero (update init 10%Q 20%Q 30%Q) eq_refl).
Defined.

(** ** The bounded queue: contents and order *)

(** X9.  The queue always holds the last three readings that arrived, oldest
    first: after any notifications its content is the last 3 entries of the
    old content followed by the readings of those notifications that
    decode; the offsets do not move and no exception is raised. *)
Theorem X9_queue_keeps_last_three :
  forall (F : Type) (PF : PyFloat F) (m : Clinkz.IMUManager F) (ds : list (list byte)),
    length (Clinkz.data_queue m) <= Clinkz.maxsize ->
    Clinkz.run m (map Clinkz.Notify ds) =
    Ok (Clinkz.mkIMUManager
          (lastn Clinkz.maxsize (Clinkz.data_queue m ++ readings ds))
          (Clinkz.offsets m)).
Proof. intros F PF m ds Hl. now apply run_notifications_queue. Qed.

Lemma X9_queue_keeps_last_three_witness :
  let f k := [x55; x61; k; x00; x00; x00; x00; x00] in
  length (Clinkz.data_queue (Clinkz.init (F:=spec_float))) <= Clinkz.maxsize /\
  Clinkz.run Clinkz.init
    (map Clinkz.Notify [f x01; [x55]; f x02; f x03; f x04; []; f x05]) =
  Ok (Clinkz.mkIMUManager
        [(to_degrees 3, B64.of_Z 0, B64.of_Z 0);
         (to_degrees 4, B64.of_Z 0, B64.of_Z 0);
         (to_degrees 5, B64.of_Z 0, B64.of_Z 0)]
        (B64.of_Z 0, B64.of_Z 0, B64.of_Z 0)).
Proof.
  intros f.
  assert (Hl : length (Clinkz.data_queue (Clinkz.init (F:=spec_float))) <= Clinkz.maxsize)
    by (simpl; unfold Clinkz.maxsize; lia).
  split; [exact Hl|].
  rewrite (X9_queue_keeps_last_three PyFloat_b64 Clinkz.init _ Hl).
  vm_compute. reflexivity.
Defined.

(** X10.  The consumer takes the queued readings oldest first, one per timer
    tick, each minus the offsets; when the queue is empty a tick changes
    nothing and renders nothing. *)
Theorem X10_ticks_drain_in_order :
  forall (F : Type) (PF : PyFloat F) (q : list (angles (F:=F)))
         (o : angles (F:=F)) (k : nat),
    clinkz_ticks (length q + k) (Clinkz.mkIMUManager q o) =
    (Clinkz.mkIMUManager [] o,
     map (fun a => Some (minus_offsets o a)) q ++ repeat None k).
Proof. intros F PF q o k. apply ticks_drain. Qed.

(** X11.  The key ['c'] takes the oldest queued reading as the new offsets
    and removes it from the queue, so that this reading is never rendered:
    the ticks that follow render the remaining readings minus it.  With an
    empty queue the key changes nothing.  The key ['r'] sets the offsets to
    zero and leaves the queue alone. *)
Theorem X11_key_c_consumes_oldest :
  forall (F : Type) (PF : PyFloat F) (a : angles (F:=F))
         (q : list (angles (F:=F))) (o : angles (F:=F)),
    Clinkz.key_c (Clinkz.mkIMUManager (a :: q) o) = Clinkz.mkIMUManager q a
    /\ clinkz_ticks (length q) (Clinkz.key_c (Clinkz.mkIMUManager (a :: q) o)) =
       (Clinkz.mkIMUManager [] a, map (fun b => Some (minus_offsets a b)) q)
    /\ Clinkz.key_c (Clinkz.mkIMUManager [] o) = Clinkz.mkIMUManager [] o
    /\ Clinkz.key_r (Clinkz.mkIMUManager (a :: q) o) =
       Clinkz.mkIMUManager (a :: q) (float_of_int 0, float_of_int 0, float_of_int 0).
Proof.
  intros F PF a q o. split; [reflexivity|]. split; [|split; reflexivity].
  change (Clinkz.key_c (Clinkz.mkIMUManager (a :: q) o)) with (Clinkz.mkIMUManager q a).
  pose proof (@ticks_drain F PF q a 0) as E.
  rewrite Nat.add_0_r in E. simpl repeat in E. rewrite app_nil_r in E. exact E.
Qed.

(** ** The first version: decoder at offset 0, scan in the callback *)

(** X12.  The first version's decoder never raises: it returns the reading
    of the bytes 2..7 exactly when the buffer has at least eleven bytes and
    starts with the header [0x55 0x61], and [None] otherwise.  Whatever it
    decodes, the scanning decoder of the later versions decodes to the same
    reading. *)
Theorem X12_v1_decoder :
  forall (F : Type) (PF : PyFloat F) (data : list byte),
    V1.decode_witmotion data =
    Ok (if is_frame11_at data 0 then Some (frame_reading data 0) else None)
    /\ (forall a, V1.decode_witmotion data = Ok (Some a) ->
                  decode_witmotion data = Some a).
Proof.
  intros F PF data. split; [apply V1_decode_spec|].
  intros a. rewrite V1_decode_spec.
  destruct (is_frame11_at data 0) eqn:Hf; [|discriminate].
  intros [= <-]. rewrite decode_witmotion_spec. unfold decode_spec.
  rewrite first_frame_zero by now apply is_frame11_is_frame. reflexivity.
Qed.

Lemma X12_v1_decoder_witness :
  let data := known_frame ++ [x00; x00; x00] in
  V1.decode_witmotion (F:=spec_float) data =
    Ok (Some (B64.of_Z 90, B64.of_Z 0, B64.of_Z (-90))) /\
  decode_witmotion (F:=spec_float) data =
    Some (B64.of_Z 90, B64.of_Z 0, B64.of_Z (-90)).
Proof.
  intros data.
  assert (E : V1.decode_witmotion (F:=spec_float) data =
              Ok (Some (B64.of_Z 90, B64.of_Z 0, B64.of_Z (-90))))
    by (vm_compute; reflexivity).
  split; [exact E|].
  exact (proj2 (X12_v1_decoder PyFloat_b64 data) _ E).
Defined.

(** X13.  The first version's callback never raises and keeps the LAST
    frame of a notification: the state afterwards holds the reading at the
    highest position that starts a header and has eleven bytes from there,
    with the flag raised; without such a position the state is unchanged.
    The next timer tick hands that reading to the actors in the order
    (pitch, yaw, roll) and lowers the flag, so that the tick after it hands
    nothing. *)
Theorem X13_v1_callback_keeps_last_frame :
  forall (F : Type) (PF : PyFloat F) (s : V1.SensorData F) (data : list byte),
    V1.callback s data =
    Ok (match last_frame11 data with
        | Some i => V1_stored (frame_reading data i)
        | None => s
        end)
    /\ (forall i r p y,
          last_frame11 data = Some i -> frame_reading data i = (r, p, y) ->
          exists s1,
            V1.callback s data = Ok s1 /\
            V1_update_orientation s1 =
              (V1.mkSensorData r p y false, Some (p, y, r)) /\
            V1_update_orientation (fst (V1_update_orientation s1)) =
              (V1.mkSensorData r p y false, None)).
Proof.
  intros F PF s data. split; [apply V1_callback_spec|].
  intros i r p y Hi Hr. exists (V1.mkSensorData r p y true).
  rewrite V1_callback_spec, Hi, Hr. repeat split.
Qed.

Lemma X13_v1_callback_keeps_last_frame_witness :
  let data := (known_frame ++ [x00; x00; x00]) ++
              [x55; x61; x00; xc0; x00; x40; x00; x00; x00; x00; x00] in
  last_frame11 data = Some 11 /\
  exists s1,
    V1.callback (V1.mkSensorData (B64.of_Z 0) (B64.of_Z 0) (B64.of_Z 0) false) data
      = Ok s1 /\
    V1_update_orientation s1 =
      (V1.mkSensorData (B64.of_Z (-90)) (B64.of_Z 90) (B64.of_Z 0) false,
       Some (B64.of_Z 90, B64.of_Z 0, B64.of_Z (-90))) /\
    V1_update_orientation (fst (V1_update_orientation s1)) =
      (V1.mkSensorData (B64.of_Z (-90)) (B64.of_Z 90) (B64.of_Z 0) false, None).
Proof.
  intros data.
  assert (Hi : last_frame11 data = Some 11) by (vm_compute; reflexivity).
  split; [exact Hi|].
  apply (proj2 (X13_v1_callback_keeps_last_frame PyFloat_b64
                  (V1.mkSensorData (B64.of_Z 0) (B64.of_Z 0) (B64.of_Z 0) false) data)
           11 (B64.of_Z (-90)) (B64.of_Z 90) (B64.of_Z 0) Hi).
  vm_compute. reflexivity.
Defined.

(** ** Facts about binary64 used by the consumers *)

Unset Implicit Arguments.
#[local] Open Scope Z_scope.

Lemma SFcompare_antisym (x y : spec_float) :
  SFcompare y x = option_map CompOpp (SFcompare x y).
Proof.
  destruct x as [sx|sx| |sx mx ex], y as [sy|sy| |sy my ey]; simpl;
    try reflexivity;
    try (destruct sx; reflexivity); try (destruct sy; reflexivity);
    try (destruct sx, sy; reflexivity).
  destruct sx, sy; try reflexivity;
    rewrite (Z.compare_antisym ex ey); destruct (ex ?= ey); simpl;
    try reflexivity.
  - rewrite CompOpp_involutive, Pos.compare_cont_antisym. reflexivity.
  - rewrite Pos.compare_cont_antisym. reflexivity.
Qed.

Lemma SFcompare_some (x y : spec_float) :
  x <> S754_nan -> y <> S754_nan -> exists c, SFcompare x y = Some c.
Proof.
  intros Hx Hy.
  destruct x as [sx|sx| |sx mx ex], y as [sy|sy| |sy my ey];
    try contradiction; simpl; eexists; reflexivity.
Qed.

Lemma SFltb_false_leb (x y : spec_float) :
  x <> S754_nan -> y <> S754_nan -> SFltb x y = false -> SFleb y x = true.
Proof.
  intros Hx Hy. unfold SFltb, SFleb. rewrite (SFcompare_antisym x y).
  destruct (SFcompare_some x y Hx Hy) as (c & ->). simpl.
  destruct c; simpl; intros; congruence.
Qed.

Lemma SFleb_ltb_false (x y : spec_float) :
  SFleb x y = true -> SFltb y x = false.
Proof.
  unfold SFltb, SFleb. rewrite (SFcompare_antisym x y).
  destruct (SFcompare x y) as [[| |]|]; simpl; intros; congruence.
Qed.

Lemma SFsub_diag (x : spec_float) :
  b64_finite x = true -> B64.sub x x = S754_zero false.
Proof.
  destruct x as [[|]|s| |s m e]; intros Hx; try discriminate; try reflexivity.
  unfold B64.sub, SFsub. rewrite Z.sub_diag. reflexivity.
Qed.

Lemma shr_1_nonneg (r : shr_record) : 0 <= shr_m r -> 0 <= shr_m (shr_1 r).
Proof.
  destruct r as [m b c]. destruct m as [|q|q]; simpl; intros Hm; try lia;
    destruct q; simpl; lia.
Qed.

Lemma iter_shr_1_nonneg (n : nat) (r : shr_record) :
  0 <= shr_m r -> 0 <= shr_m (Nat.iter n shr_1 r).
Proof.
  intros Hr. induction n as [|n IH]; [exact Hr|].
  simpl. now apply shr_1_nonneg.
Qed.

Lemma shr_fexp_nonneg (m e : Z) (l : location) :
  0 <= m -> 0 <= shr_m (fst (shr_fexp B64.prec B64.emax m e l)).
Proof.
  intros Hm. unfold shr_fexp, shr.
  assert (H0 : 0 <= shr_m (shr_record_of_loc m l)) by (destruct l as [|[| |]]; exact Hm).
  destruct (fexp B64.prec B64.emax (Zdigits2 m + e) - e) as [|q|q]; cbn [fst];
    try exact H0.
  rewrite iter_pos_nat. now apply iter_shr_1_nonneg.
Qed.

Lemma round_nearest_even_nonneg (m : Z) (l : location) :
  0 <= m -> 0 <= round_nearest_even m l.
Proof.
  intros Hm. destruct l as [|[| |]]; simpl; try lia.
  destruct (Z.even m); lia.
Qed.

(** Rounding a non-negative mantissa never gives NaN. *)
Lemma binary_round_aux_not_nan (s : bool) (m e : Z) (l : location) :
  0 <= m -> binary_round_aux B64.prec B64.emax s m e l <> S754_nan.
Proof.
  intros Hm. unfold binary_round_aux.
  pose proof (shr_fexp_nonneg m e l Hm) as H1.
  destruct (shr_fexp B64.prec B64.emax m e l) as [r1 e1]. cbn [fst] in H1.
  pose proof (shr_fexp_nonneg (round_nearest_even (shr_m r1) (loc_of_shr_record r1))
                e1 loc_Exact (round_nearest_even_nonneg _ _ H1)) as H2.
  destruct (shr_fexp B64.prec B64.emax _ e1 loc_Exact) as [r2 e2]. cbn [fst] in H2.
  destruct (shr_m r2) as [|q|q]; [discriminate | | lia].
  destruct (e2 <=? B64.emax - B64.prec); discriminate.
Qed.

Lemma binary_round_not_nan (s : bool) (m : positive) (e : Z) :
  binary_round B64.prec B64.emax s m e <> S754_nan.
Proof.
  unfold binary_round. destruct (shl_align m e _) as [mz ez].
  apply binary_round_aux_not_nan. lia.
Qed.

(** The difference of two finite values is never NaN. *)
Lemma SFsub_not_nan (x y : spec_float) :
  b64_finite x = true -> b64_finite y = true -> B64.sub x y <> S754_nan.
Proof.
  destruct x as [sx|sx| |sx mx ex], y as [sy|sy| |sy my ey];
    intros Hx Hy; try discriminate.
  - destruct sx, sy; discriminate.
  - unfold B64.sub, SFsub, binary_normalize.
    destruct (cond_Zopp sx _ - cond_Zopp sy _) as [|q|q];
      [discriminate | apply binary_round_not_nan | apply binary_round_not_nan].
Qed.

Lemma shr_fexp_canonical (q : positive) (n : nat) (e : Z) :
  fexp B64.prec B64.emax (Z.pos (Pos.size q) + (e + Z.of_nat n)) = e + Z.of_nat n ->
  shr_fexp B64.prec B64.emax (Z.pos (Pos.shiftl_nat q n)) e loc_Exact =
  (Build_shr_record (Z.pos q) false false, e + Z.of_nat n).
Proof.
  intros Hc. unfold shr_fexp, Zdigits2.
  rewrite digits2_pos_size, size_shiftl_nat.
  replace (Z.pos (Pos.size q) + Z.of_nat n + e)
    with (Z.pos (Pos.size q) + (e + Z.of_nat n)) by lia.
  rewrite Hc.
  replace (e + Z.of_nat n - e) with (Z.of_nat n) by lia.
  unfold shr, shr_record_of_loc.
  destruct n as [|n].
  - simpl. f_equal. lia.
  - cbn [Z.of_nat]. rewrite iter_pos_nat, SuccNat2Pos.id_succ, shr_1_shiftl_nat.
    reflexivity.
Qed.

Lemma binary_round_aux_canonical (s : bool) (q : positive) (n : nat) (e : Z) :
  fexp B64.prec B64.emax (Z.pos (Pos.size q) + (e + Z.of_nat n)) = e + Z.of_nat n ->
  e + Z.of_nat n <= 971 ->
  binary_round_aux B64.prec B64.emax s (Z.pos (Pos.shiftl_nat q n)) e loc_Exact =
  S754_finite s q (e + Z.of_nat n).
Proof.
  intros Hc He. unfold binary_round_aux.
  rewrite shr_fexp_canonical by exact Hc.
  cbn [shr_m loc_of_shr_record round_nearest_even].
  assert (E2 := shr_fexp_canonical q 0 (e + Z.of_nat n)).
  change (Pos.shiftl_nat q 0) with q in E2.
  replace (e + Z.of_nat n + Z.of_nat 0) with (e + Z.of_nat n) in E2 by (simpl; lia).
  rewrite E2 by exact Hc.
  cbn [shr_m].
  destruct (Z.leb_spec (e + Z.of_nat n) (B64.emax - B64.prec)) as [_|H]; [reflexivity|].
  unfold B64.emax, B64.prec in H. lia.
Qed.

Lemma mul_two52 (s t : bool) (m : positive) (e : Z) :
  canonical (S754_finite s m e) ->
  B64.mul (S754_finite s m e) (S754_finite t two52 (-52)) = S754_finite (xorb s t) m e.
Proof.
  intros [Hc He]. unfold B64.mul, SFmul.
  assert (Hm : (m * two52)%positive = Pos.shiftl_nat m 52).
  { apply Pos2Z.inj. rewrite Pos2Z.inj_mul, Zpos_shiftl_nat. reflexivity. }
  rewrite Hm.
  assert (E := binary_round_aux_canonical (xorb s t) m 52 (e + -52)).
  replace (e + -52 + Z.of_nat 52) with e in E by (simpl; lia).
  apply E; assumption.
Qed.

Lemma mul_one (x : spec_float) :
  canonical x -> B64.mul x (B64.of_Z 1) = x.
Proof.
  change (B64.of_Z 1) with (S754_finite false two52 (-52)).
  destruct x as [s|s| |s m e]; intros Hx.
  - simpl. now rewrite xorb_false_r.
  - simpl. now rewrite xorb_false_r.
  - reflexivity.
  - rewrite mul_two52 by exact Hx. now rewrite xorb_false_r.
Qed.

Lemma mul_minus_one (x : spec_float) :
  canonical x -> B64.mul x (B64.of_Z (-1)) = SFopp x.
Proof.
  change (B64.of_Z (-1)) with (S754_finite true two52 (-52)).
  destruct x as [s|s| |s m e]; intros Hx.
  - simpl. now rewrite xorb_true_r.
  - simpl. now rewrite xorb_true_r.
  - reflexivity.
  - rewrite mul_two52 by exact Hx. now rewrite xorb_true_r.
Qed.

#[local] Close Scope Z_scope.
Set Implicit Arguments.

(** ** Binary64 and the rationals agree on the decoder *)

Lemma to_degrees_b64_is (v : Z) :
  int16 v -> b64_is (to_degrees v) (to_degrees v).
Proof.
  intros Hv. destruct (degrees_b64_exact v Hv) as (q & E & Hq).
  exists q. split; [exact E|]. rewrite Hq. unfold to_degrees. simpl. reflexivity.
Qed.

Lemma b64_is_finite (x : spec_float) (q : Q) : b64_is x q -> b64_finite x = true.
Proof. intros (q' & E & _). destruct x; try discriminate; reflexivity. Qed.

Lemma decoded_finite (data : list byte) (r p y : spec_float) :
  decode_witmotion data = Some (r, p, y) ->
  b64_finite r = true /\ b64_finite p = true /\ b64_finite y = true.
Proof.
  intros Hd. destruct (decode_some_frame _ Hd) as (i & _ & E).
  unfold frame_reading in E. injection E as -> -> ->.
  repeat split; eapply b64_is_finite; apply to_degrees_b64_is; apply int16_le_range.
Qed.

(** X14.  The conversion to degrees loses nothing in binary64: on every
    buffer the decoder over binary64 and the decoder over the rationals
    either both return [None] or both return a reading, and then each
    binary64 angle stands exactly for the rational angle
    [raw * 180 / 32768]. *)
Theorem X14_decoder_exact_in_binary64 :
  forall data : list byte,
    match decode_witmotion (F:=spec_float) data, decode_witmotion (F:=Q) data with
    | Some (r, p, y), Some (r', p', y') => b64_is r r' /\ b64_is p p' /\ b64_is y y'
    | None, None => True
    | _, _ => False
    end.
Proof.
  intros data. rewrite !decode_witmotion_spec. unfold decode_spec.
  destruct (first_frame data) as [i|]; [|exact I].
  cbn [option_map]. unfold frame_reading.
  split; [|split]; apply to_degrees_b64_is; apply int16_le_range.
Qed.

(** ** The calibrating variants without a filter *)

(** X15.  In [witmotion_vtk_fixed.py] and [ai_studio_code_version2.py] the
    key ['c'] takes effect at once: when a notification has decoded and the
    key is pressed, the next timer tick hands on exactly [(0.0, 0.0, 0.0)] in
    binary64 (and over the rationals), and lowers the flag. *)
Theorem X15_fixed_calibrate_reads_zero :
  (forall (s : Fixed.SensorData spec_float) (data : list byte) (r p y : spec_float),
      decode_witmotion data = Some (r, p, y) ->
      Fixed.update_view (Fixed.calibrate (Fixed_callback s data)) =
      (Fixed.mkSensorData r p y r p y false,
       Some (B64.of_Z 0, B64.of_Z 0, B64.of_Z 0)))
  /\ (forall (s : Fixed.SensorData Q) (data : list byte) (r p y : Q),
        decode_witmotion data = Some (r, p, y) ->
        exists a,
          Fixed.update_view (Fixed.calibrate (Fixed_callback s data)) =
          (Fixed.mkSensorData r p y r p y false, Some a) /\
          angles_Qeq a (0, 0, 0)%Q).
Proof.
  split.
  - intros s data r p y Hd. unfold Fixed_callback. rewrite Hd.
    destruct (decoded_finite _ Hd) as (Hr & Hp & Hy).
    unfold Fixed.update_view, Fixed.calibrate, Fixed.update,
      Fixed.get_calibrated_angles.
    cbn [Fixed.new_data Fixed.roll Fixed.pitch Fixed.yaw
         Fixed.offset_r Fixed.offset_p Fixed.offset_y].
    change (@fsub spec_float PyFloat_b64) with B64.sub.
    rewrite !SFsub_diag by assumption. reflexivity.
  - intros s data r p y Hd. unfold Fixed_callback. rewrite Hd.
    unfold Fixed.update_view, Fixed.calibrate, Fixed.update,
      Fixed.get_calibrated_angles.
    cbn [Fixed.new_data Fixed.roll Fixed.pitch Fixed.yaw
         Fixed.offset_r Fixed.offset_p Fixed.offset_y].
    eexists. split; [reflexivity|].
    unfold angles_Qeq. change (@fsub Q PyFloat_Q) with Qminus.
    split; [|split]; ring.
Qed.

Lemma X15_fixed_calibrate_reads_zero_witness :
  decode_witmotion (F:=spec_float) known_frame =
    Some (B64.of_Z 90, B64.of_Z 0, B64.of_Z (-90)) /\
  Fixed.update_view (Fixed.calibrate (Fixed_callback Fixed.init known_frame)) =
  (Fixed.mkSensorData (B64.of_Z 90) (B64.of_Z 0) (B64.of_Z (-90))
     (B64.of_Z 90) (B64.of_Z 0) (B64.of_Z (-90)) false,
   Some (B64.of_Z 0, B64.of_Z 0, B64.of_Z 0)).
Proof.
  assert (E : decode_witmotion (F:=spec_float) known_frame =
              Some (B64.of_Z 90, B64.of_Z 0, B64.of_Z (-90)))
    by (vm_compute; reflexivity).
  split; [exact E|].
  exact (proj1 X15_fixed_calibrate_reads_zero Fixed.init known_frame _ _ _ E).
Defined.

(** ** The consumer of the moving-average variant *)

Lemma clamp_b64_unfold (x : spec_float) :
  QwenView.clamp x =
  let m := if SFltb (B64.of_Z 180) x then B64.of_Z 180 else x in
  if SFltb m (B64.of_Z (-180)) then B64.of_Z (-180) else m.
Proof. reflexivity. Qed.

Lemma clamp_Q_unfold (x : Q) :
  QwenView.clamp x =
  let m := if negb (Qle_bool x 180) then 180%Q else x in
  if negb (Qle_bool (-180) m) then (-180)%Q else m.
Proof. reflexivity. Qed.

Lemma Qle_bool_false (a b : Q) : Qle_bool a b = false -> (b < a)%Q.
Proof.
  intros E. apply Qnot_le_lt. intros Hle. apply Qle_bool_iff in Hle. congruence.
Qed.

Lemma clamp_b64_bounds (x : spec_float) :
  x <> S754_nan ->
  B64.leb (B64.of_Z (-180)) (QwenView.clamp x) = true /\
  B64.leb (QwenView.clamp x) (B64.of_Z 180) = true.
Proof.
  intros Hx. rewrite clamp_b64_unfold. cbv zeta.
  assert (Hc : B64.of_Z 180 <> S754_nan) by (vm_compute; discriminate).
  assert (Hn : B64.of_Z (-180) <> S754_nan) by (vm_compute; discriminate).
  destruct (SFltb (B64.of_Z 180) x) eqn:E1.
  - change (SFltb (B64.of_Z 180) (B64.of_Z (-180))) with false. cbv iota.
    split; vm_compute; reflexivity.
  - destruct (SFltb x (B64.of_Z (-180))) eqn:E2.
    + split; vm_compute; reflexivity.
    + split; apply SFltb_false_leb; assumption.
Qed.

Lemma clamp_b64_inside (x : spec_float) :
  B64.leb (B64.of_Z (-180)) x = true -> B64.leb x (B64.of_Z 180) = true ->
  QwenView.clamp x = x.
Proof.
  intros Hlo Hhi. rewrite clamp_b64_unfold. cbv zeta.
  rewrite (SFleb_ltb_false _ _ Hhi), (SFleb_ltb_false _ _ Hlo). reflexivity.
Qed.

Lemma clamp_Q_bounds (x : Q) :
  (-180 <= QwenView.clamp x /\ QwenView.clamp x <= 180)%Q.
Proof.
  rewrite clamp_Q_unfold. cbv zeta.
  destruct (Qle_bool x 180) eqn:E1; cbn [negb].
  - destruct (Qle_bool (-180) x) eqn:E2; cbn [negb].
    + apply Qle_bool_iff in E1, E2. split; assumption.
    + split; [apply Qle_refl | discriminate].
  - change (Qle_bool (-180) 180) with true. cbn [negb].
    split; [discriminate | apply Qle_refl].
Qed.

Lemma clamp_Q_inside (x : Q) :
  (-180 <= x)%Q -> (x <= 180)%Q -> QwenView.clamp x = x.
Proof.
  intros Hlo Hhi. rewrite clamp_Q_unfold. cbv zeta.
  apply Qle_bool_iff in Hlo, Hhi. rewrite Hhi. cbn [negb]. rewrite Hlo. reflexivity.
Qed.

(** X16.  The limiter [max(min(x, 180.0), -180.0)] of the moving-average
    variant returns a value in [[-180, 180]] for every binary64 input other
    than NaN and for every rational input, and leaves a value of that range
    as it is.  NaN is not limited: it passes through. *)
Theorem X16_clamp_limits :
  (forall x : spec_float,
      x <> S754_nan ->
      B64.leb (B64.of_Z (-180)) (QwenView.clamp x) = true /\
      B64.leb (QwenView.clamp x) (B64.of_Z 180) = true)
  /\ (forall x : spec_float,
        B64.leb (B64.of_Z (-180)) x = true -> B64.leb x (B64.of_Z 180) = true ->
        QwenView.clamp x = x)
  /\ QwenView.clamp S754_nan = S754_nan
  /\ (forall x : Q,
        (-180 <= QwenView.clamp x /\ QwenView.clamp x <= 180)%Q /\
        ((-180 <= x)%Q -> (x <= 180)%Q -> QwenView.clamp x = x)).
Proof.
  split; [exact clamp_b64_bounds|]. split; [exact clamp_b64_inside|].
  split; [reflexivity|].
  intros x. split; [apply clamp_Q_bounds | apply clamp_Q_inside].
Qed.

Lemma X16_clamp_limits_witness :
  B64.leb (QwenView.clamp (B64.of_Z 360)) (B64.of_Z 180) = true /\
  QwenView.clamp (B64.of_Z 90) = B64.of_Z 90 /\
  QwenView.clamp (S754_infinity true) = B64.of_Z (-180).
Proof.
  split; [|split].
  - apply (proj1 X16_clamp_limits (B64.of_Z 360)). vm_compute. discriminate.
  - apply (proj1 (proj2 X16_clamp_limits) (B64.of_Z 90)); vm_compute; reflexivity.
  - vm_compute. reflexivity.
Defined.

Lemma qwen_view_idle {F : Type} `{PyFloat F} `{PyFloatCmp F} (s : Qwen.SensorData F) :
  Qwen.new_data s = false -> QwenView.update_view s = (s, None).
Proof. intros E. unfold QwenView.update_view. rewrite E. reflexivity. Qed.

(** X17.  What the timer tick of the moving-average variant hands on: with
    the flag down nothing, and the state stays; with the flag up three
    angles, and the flag is lowered, so that the next tick hands on nothing.
    Over the rationals each angle handed on lies in [[-180, 180]].  In
    binary64 an angle handed on lies in [[-180, 180]] whenever the
    difference of mean value and offset is not NaN, which is so for all
    finite mean values and offsets; with mean value and offset both
    [+inf] the difference is NaN and the tick hands on NaN.  Right after the
    key ['c'] the three angles are exactly zero, in binary64 for finite mean
    values and over the rationals. *)
Theorem X17_qwen_view :
  (forall s : Qwen.SensorData Q,
      Qwen.new_data s = false -> QwenView.update_view s = (s, None))
  /\ (forall s : Qwen.SensorData Q,
        Qwen.new_data s = true ->
        exists s' a,
          QwenView.update_view s = (s', Some a) /\ within (-180) 180 a /\
          QwenView.update_view s' = (s', None))
  /\ (forall s : Qwen.SensorData spec_float,
        Qwen.new_data s = true ->
        b64_finite (Qwen.roll s) = true -> b64_finite (Qwen.pitch s) = true ->
        b64_finite (Qwen.yaw s) = true ->
        snd (QwenView.update_view (Qwen.calibrate s)) =
        Some (B64.of_Z 0, B64.of_Z 0, B64.of_Z 0))
  /\ (forall s : Qwen.SensorData Q,
        Qwen.new_data s = true ->
        exists a,
          snd (QwenView.update_view (Qwen.calibrate s)) = Some a /\
          angles_Qeq a (0, 0, 0)%Q)
  /\ (forall s : Qwen.SensorData spec_float,
        Qwen.new_data s = false -> QwenView.update_view s = (s, None))
  /\ (forall s : Qwen.SensorData spec_float,
        Qwen.new_data s = true ->
        let ok v := B64.leb (B64.of_Z (-180)) v = true /\
                    B64.leb v (B64.of_Z 180) = true in
        exists s' r p y,
          QwenView.update_view s = (s', Some (r, p, y)) /\
          QwenView.update_view s' = (s', None) /\
          (B64.sub (Qwen.roll s) (Qwen.offset_r s) <> S754_nan -> ok r) /\
          (B64.sub (Qwen.pitch s) (Qwen.offset_p s) <> S754_nan -> ok p) /\
          (B64.sub (Qwen.yaw s) (Qwen.offset_y s) <> S754_nan -> ok y) /\
          (b64_finite (Qwen.roll s) = true -> b64_finite (Qwen.offset_r s) = true ->
           ok r) /\
          (b64_finite (Qwen.pitch s) = true -> b64_finite (Qwen.offset_p s) = true ->
           ok p) /\
          (b64_finite (Qwen.yaw s) = true -> b64_finite (Qwen.offset_y s) = true ->
           ok y))
  /\ (let inf := S754_infinity false in
      let z := B64.of_Z 0 in
      snd (QwenView.update_view
             (Qwen.mkSensorData inf z z inf z z true 5 [] [] [])) =
      Some (S754_nan, z, z)).
Proof.
  split; [intros s E; now apply qwen_view_idle|].
  split; [|split; [|split; [|split; [|split]]]].
  - intros s E. unfold QwenView.update_view. rewrite E.
    eexists. eexists. split; [reflexivity|]. split.
    + apply within_triple; apply clamp_Q_bounds.
    + reflexivity.
  - intros s E Hr Hp Hy. unfold QwenView.update_view, Qwen.calibrate.
    cbn [Qwen.new_data Qwen.roll Qwen.pitch Qwen.yaw
         Qwen.offset_r Qwen.offset_p Qwen.offset_y snd].
    rewrite E. cbn [snd].
    change (@fsub spec_float PyFloat_b64) with B64.sub.
    rewrite !SFsub_diag by assumption. reflexivity.
  - intros s E. unfold QwenView.update_view, Qwen.calibrate.
    cbn [Qwen.new_data Qwen.roll Qwen.pitch Qwen.yaw
         Qwen.offset_r Qwen.offset_p Qwen.offset_y snd].
    rewrite E. cbn [snd].
    eexists. split; [reflexivity|]. unfold angles_Qeq.
    change (@fsub Q PyFloat_Q) with Qminus.
    assert (Hz : forall x : Q, (QwenView.clamp (x - x) == 0)%Q).
    { intros x. rewrite clamp_Q_inside.
      - ring.
      - setoid_replace (x - x)%Q with 0%Q by ring. discriminate.
      - setoid_replace (x - x)%Q with 0%Q by ring. discriminate. }
    split; [|split]; apply Hz.
  - intros s E. now apply qwen_view_idle.
  - intros s E ok. unfold QwenView.update_view. rewrite E.
    change (@fsub spec_float PyFloat_b64) with B64.sub.
    do 4 eexists. split; [reflexivity|]. split; [reflexivity|].
    unfold ok.
    split; [intros Hn; now apply clamp_b64_bounds|].
    split; [intros Hn; now apply clamp_b64_bounds|].
    split; [intros Hn; now apply clamp_b64_bounds|].
    split; [intros H1 H2; apply clamp_b64_bounds; now apply SFsub_not_nan|].
    split; [intros H1 H2; apply clamp_b64_bounds; now apply SFsub_not_nan|].
    intros H1 H2; apply clamp_b64_bounds; now apply SFsub_not_nan.
  - reflexivity.
Qed.

Lemma X17_qwen_view_witness :
  let s := Qwen.mkSensorData (B64.of_Z 18) (B64.of_Z 0) (B64.of_Z (-18))
             (B64.of_Z 0) (B64.of_Z 0) (B64.of_Z 0) true 5
             [B64.of_Z 0; B64.of_Z 0; B64.of_Z 0; B64.of_Z 0; B64.of_Z 90]
             [B64.of_Z 0; B64.of_Z 0; B64.of_Z 0; B64.of_Z 0; B64.of_Z 0]
             [B64.of_Z 0; B64.of_Z 0; B64.of_Z 0; B64.of_Z 0; B64.of_Z (-90)] in
  Qwen.add_raw_angles Qwen.shared_data (B64.of_Z 90) (B64.of_Z 0) (B64.of_Z (-90)) = Ok s /\
  snd (QwenView.update_view (Qwen.calibrate s)) =
  Some (B64.of_Z 0, B64.of_Z 0, B64.of_Z 0) /\
  exists s' r p y,
    QwenView.update_view s = (s', Some (r, p, y)) /\
    B64.leb (B64.of_Z (-180)) r = true /\ B64.leb r (B64.of_Z 180) = true.
Proof.
  intros s. split; [vm_compute; reflexivity|]. split.
  - apply (proj1 (proj2 (proj2 X17_qwen_view)) s); reflexivity.
  - destruct (proj1 (proj2 (proj2 (proj2 (proj2 (proj2 X17_qwen_view))))) s eq_refl)
      as (s' & r & p & y & E & _ & _ & _ & _ & Hr & _).
    exists s', r, p, y. split; [exact E|]. exact (Hr eq_refl eq_refl).
Defined.

(** ** The moving average: range and step response *)

Lemma Forall_skipn {A} (P : A -> Prop) (n : nat) (l : list A) :
  Forall P l -> Forall P (skipn n l).
Proof.
  revert l. induction n as [|n IH]; intros l Hl; [exact Hl|].
  destruct l as [|a l]; [constructor|]. simpl. apply IH. now inversion Hl.
Qed.

Lemma skipn_repeat {A} (c : A) (k m : nat) : skipn k (repeat c (k + m)) = repeat c m.
Proof. induction k as [|k IH]; [reflexivity | exact IH]. Qed.

Lemma lastn_repeat {A} (c : A) (k n : nat) : k <= n -> lastn k (repeat c n) = repeat c k.
Proof.
  intros Hk. unfold lastn. rewrite repeat_length.
  replace n with ((n - k) + k) at 2 by lia. apply skipn_repeat.
Qed.

Lemma mean5_within (lo hi : Q) (d : list Q) :
  length d = 5 -> Forall (fun x => lo <= x /\ x <= hi)%Q d ->
  (lo <= fdiv (Qwen.py_sum d) (float_of_int 5) /\
   fdiv (Qwen.py_sum d) (float_of_int 5) <= hi)%Q.
Proof.
  intros Hl Hd.
  destruct d as [|a [|b [|c [|d [|e [|f l]]]]]]; try discriminate.
  inversion Hd as [|? ? [Ha1 Ha2] Hd1]; subst.
  inversion Hd1 as [|? ? [Hb1 Hb2] Hd2]; subst.
  inversion Hd2 as [|? ? [Hc1 Hc2] Hd3]; subst.
  inversion Hd3 as [|? ? [Hd'1 Hd'2] Hd4]; subst.
  inversion Hd4 as [|? ? [He1 He2] _]; subst.
  assert (E : (fdiv (Qwen.py_sum [a; b; c; d; e]) (float_of_int 5) ==
               (a + b + c + d + e) * (1 # 5))%Q).
  { unfold Qwen.py_sum. cbn [fold_left].
    change (@fadd Q PyFloat_Q) with Qplus. change (@fdiv Q PyFloat_Q) with Qdiv.
    change (@float_of_int Q PyFloat_Q 0) with 0%Q.
    change (@float_of_int Q PyFloat_Q 5) with 5%Q. field. }
  rewrite E. split; lra.
Qed.

Lemma window_within (lo hi : Q) (l : list Q) :
  (lo <= 0)%Q -> (0 <= hi)%Q ->
  Forall (fun x => lo <= x /\ x <= hi)%Q l ->
  Forall (fun x => lo <= x /\ x <= hi)%Q (lastn 5 (repeat (float_of_int 0) 5 ++ l)).
Proof.
  intros Hlo Hhi Hl. unfold lastn. apply Forall_skipn. apply Forall_app. split.
  - repeat constructor; assumption.
  - exact Hl.
Qed.

Lemma window_sum (c : Q) (n : nat) :
  (Qwen.py_sum (lastn 5 (repeat (float_of_int 0) 5 ++ repeat c n)) ==
   inject_Z (Z.of_nat (Nat.min n 5)) * c)%Q.
Proof.
  destruct n as [|[|[|[|[|n]]]]].
  - change (Qwen.py_sum _) with (0 + 0 + 0 + 0 + 0 + 0)%Q.
    change (inject_Z _) with 0%Q. ring.
  - change (Qwen.py_sum _) with (0 + 0 + 0 + 0 + 0 + c)%Q.
    change (inject_Z _) with 1%Q. ring.
  - change (Qwen.py_sum _) with (0 + 0 + 0 + 0 + c + c)%Q.
    change (inject_Z _) with 2%Q. ring.
  - change (Qwen.py_sum _) with (0 + 0 + 0 + c + c + c)%Q.
    change (inject_Z _) with 3%Q. ring.
  - change (Qwen.py_sum _) with (0 + 0 + c + c + c + c)%Q.
    change (inject_Z _) with 4%Q. ring.
  - rewrite lastn_app_enough by (rewrite repeat_length; lia).
    rewrite lastn_repeat by lia.
    replace (Nat.min (S (S (S (S (S n))))) 5) with 5 by lia.
    change (Qwen.py_sum _) with (0 + c + c + c + c + c)%Q.
    change (inject_Z _) with 5%Q. ring.
Qed.

Lemma rolls_repeat {F} (a b c : F) (n : nat) : rolls (repeat (a, b, c) n) = repeat a n.
Proof. unfold rolls. apply map_repeat. Qed.

Lemma pitches_repeat {F} (a b c : F) (n : nat) : pitches (repeat (a, b, c) n) = repeat b n.
Proof. unfold pitches. apply map_repeat. Qed.

Lemma yaws_repeat {F} (a b c : F) (n : nat) : yaws (repeat (a, b, c) n) = repeat c n.
Proof. unfold yaws. apply map_repeat. Qed.

Lemma add_all_within :
  forall (lo hi : Q) (xs : list (Q * Q * Q)),
    (lo <= 0)%Q -> (0 <= hi)%Q -> Forall (within lo hi) xs ->
    exists s', Qwen.add_all Qwen.shared_data xs = Ok s' /\
               within lo hi (Qwen.roll s', Qwen.pitch s', Qwen.yaw s').
Proof.
  intros lo hi xs Hlo Hhi Hxs.
  destruct xs as [|x xs].
  - exists Qwen.shared_data. split; [reflexivity|].
    apply within_triple; split; assumption.
  - destruct (add_all_spec (x :: xs) (@shared_data_window5 Q PyFloat_Q))
      as (s' & E & (_ & Lr & Lp & Ly) & Br & Bp & By & Hm).
    destruct (Hm ltac:(discriminate)) as (Mr & Mp & My).
    exists s'. split; [exact E|].
    rewrite Mr, Mp, My.
    apply within_triple.
    + apply mean5_within; [exact Lr|]. rewrite Br. apply window_within; try assumption.
      unfold rolls. apply Forall_map. revert Hxs. apply Forall_impl.
      intros [[r p] y] (Hr & _ & _). exact Hr.
    + apply mean5_within; [exact Lp|]. rewrite Bp. apply window_within; try assumption.
      unfold pitches. apply Forall_map. revert Hxs. apply Forall_impl.
      intros [[r p] y] (_ & Hp & _). exact Hp.
    + apply mean5_within; [exact Ly|]. rewrite By. apply window_within; try assumption.
      unfold yaws. apply Forall_map. revert Hxs. apply Forall_impl.
      intros [[r p] y] (_ & _ & Hy). exact Hy.
Qed.

(** X18.  The moving average never leaves the range of its inputs: when
    every reading fed to the fresh state lies in [[lo, hi]], with
    [lo <= 0 <= hi] because the buffers start with zeros, then so do the
    three mean values after the last call (over the rationals). *)
Theorem X18_moving_average_in_range :
  forall (lo hi : Q) (xs : list (Q * Q * Q)),
    (lo <= 0)%Q -> (0 <= hi)%Q -> Forall (within lo hi) xs ->
    exists s', Qwen.add_all Qwen.shared_data xs = Ok s' /\
               within lo hi (Qwen.roll s', Qwen.pitch s', Qwen.yaw s').
Proof. intros lo hi xs Hlo Hhi Hxs. now apply add_all_within. Qed.

Lemma X18_moving_average_in_range_witness :
  exists s', Qwen.add_all Qwen.shared_data [(90, -45, 10)%Q; (-90, 45, 20)%Q] = Ok s' /\
             within (-90) 90 (Qwen.roll s', Qwen.pitch s', Qwen.yaw s').
Proof.
  apply X18_moving_average_in_range.
  - discriminate.
  - discriminate.
  - repeat constructor; discriminate.
Defined.

(** X19.  Step response of the moving average: after [n] equal readings
    [(a, b, c)] on the fresh state each mean value is [min(n, 5) / 5] of
    its reading, so that the output reaches the reading with the fifth call
    and stays there (over the rationals). *)
Theorem X19_moving_average_step :
  forall (a b c : Q) (n : nat),
    exists s', Qwen.add_all Qwen.shared_data (repeat (a, b, c) n) = Ok s' /\
      let k := inject_Z (Z.of_nat (Nat.min n 5)) in
      (Qwen.roll s' == k / 5 * a)%Q /\ (Qwen.pitch s' == k / 5 * b)%Q /\
      (Qwen.yaw s' == k / 5 * c)%Q.
Proof.
  intros a b c n. destruct n as [|n].
  - exists Qwen.shared_data. split; [reflexivity|].
    change (inject_Z (Z.of_nat (Nat.min 0 5))) with 0%Q.
    change (Qwen.roll (Qwen.shared_data (F:=Q))) with 0%Q.
    change (Qwen.pitch (Qwen.shared_data (F:=Q))) with 0%Q.
    change (Qwen.yaw (Qwen.shared_data (F:=Q))) with 0%Q.
    cbv zeta. split; [|split]; field.
  - destruct (add_all_spec (repeat (a, b, c) (S n)) (@shared_data_window5 Q PyFloat_Q))
      as (s' & E & _ & Br & Bp & By & Hm).
    destruct (Hm ltac:(discriminate)) as (Mr & Mp & My).
    exists s'. split; [exact E|]. cbv zeta.
    rewrite Mr, Mp, My, Br, Bp, By.
    rewrite rolls_repeat, pitches_repeat, yaws_repeat.
    change (@fdiv Q PyFloat_Q) with Qdiv.
    change (@float_of_int Q PyFloat_Q 5) with 5%Q.
    change (Qwen.roll_buffer (Qwen.shared_data (F:=Q))) with (repeat (float_of_int (F:=Q) 0) 5).
    change (Qwen.pitch_buffer (Qwen.shared_data (F:=Q))) with (repeat (float_of_int (F:=Q) 0) 5).
    change (Qwen.yaw_buffer (Qwen.shared_data (F:=Q))) with (repeat (float_of_int (F:=Q) 0) 5).
    rewrite !window_sum. split; [|split]; field.
Qed.

Section QwenRun.
Context {F : Type} `{PyFloat F}.

Lemma Qwen_notifications_add_all (ds : list (list byte)) (s : Qwen.SensorData F) :
  Qwen_notifications s ds = Qwen.add_all s (readings ds).
Proof.
  revert s. induction ds as [|d ds IH]; intros s; [reflexivity|].
  simpl. unfold Qwen_callback.
  destruct (decode_witmotion d) as [[[r p] y]|]; simpl.
  - destruct (Qwen.add_raw_angles s r p y) as [s1|e]; simpl; [apply IH | reflexivity].
  - apply IH.
Qed.

Lemma add_raw_angles_offsets (s s' : Qwen.SensorData F) (r p y : F) :
  Qwen.add_raw_angles s r p y = Ok s' ->
  Qwen.offset_r s' = Qwen.offset_r s /\ Qwen.offset_p s' = Qwen.offset_p s /\
  Qwen.offset_y s' = Qwen.offset_y s.
Proof.
  unfold Qwen.add_raw_angles.
  destruct (Qwen.mean _) as [m1|]; [|discriminate].
  destruct (Qwen.mean _) as [m2|]; [|discriminate].
  destruct (Qwen.mean _) as [m3|]; [|discriminate].
  simpl. intros [= <-]. repeat split.
Qed.

Lemma add_all_offsets (xs : list (angles (F:=F))) (s s' : Qwen.SensorData F) :
  Qwen.add_all s xs = Ok s' ->
  Qwen.offset_r s' = Qwen.offset_r s /\ Qwen.offset_p s' = Qwen.offset_p s /\
  Qwen.offset_y s' = Qwen.offset_y s.
Proof.
  revert s. induction xs as [|[[r p] y] xs IH]; intros s.
  - simpl. intros [= <-]. repeat split.
  - simpl. destruct (Qwen.add_raw_angles s r p y) as [s1|e] eqn:E1; [|discriminate].
    simpl. intros E. destruct (IH _ E) as (Hr & Hp & Hy).
    destruct (add_raw_angles_offsets _ _ _ _ E1) as (Hr1 & Hp1 & Hy1).
    repeat split; congruence.
Qed.
End QwenRun.

Lemma readings_within (ds : list (list byte)) :
  Forall (within (-180) 180) (readings (F:=Q) ds).
Proof.
  induction ds as [|d ds IH]; [constructor|].
  unfold readings. simpl. fold (readings (F:=Q) ds).
  destruct (decode_witmotion d) as [a|] eqn:E; simpl; [|exact IH].
  constructor; [|exact IH]. exact (decoded_within_180 _ E).
Qed.

(** X20.  Before any calibration the limiter of the moving-average variant
    never acts: from the fresh state, whatever notifications arrive, the
    callback raises nothing, the three mean values stay in [[-180, 180]],
    and a timer tick that finds the flag up hands on the mean values
    themselves (over the rationals). *)
Theorem X20_limiter_idle_before_calibration :
  forall ds : list (list byte),
    exists s' : Qwen.SensorData Q,
      Qwen_notifications Qwen.shared_data ds = Ok s' /\
      within (-180) 180 (Qwen.roll s', Qwen.pitch s', Qwen.yaw s') /\
      (Qwen.new_data s' = true ->
       exists a, snd (QwenView.update_view s') = Some a /\
                 angles_Qeq a (Qwen.roll s', Qwen.pitch s', Qwen.yaw s')).
Proof.
  intros ds. rewrite Qwen_notifications_add_all.
  destruct (add_all_within (lo:=-180) (hi:=180) (xs:=readings ds))
    as (s' & E & Hw); try discriminate; [apply readings_within|].
  exists s'. split; [exact E|]. split; [exact Hw|].
  intros Hn. destruct (add_all_offsets _ _ E) as (Or & Op & Oy).
  unfold QwenView.update_view. rewrite Hn, Or, Op, Oy. cbn [snd].
  change (Qwen.offset_r (Qwen.shared_data (F:=Q))) with 0%Q.
  change (Qwen.offset_p (Qwen.shared_data (F:=Q))) with 0%Q.
  change (Qwen.offset_y (Qwen.shared_data (F:=Q))) with 0%Q.
  change (@fsub Q PyFloat_Q) with Qminus.
  destruct Hw as ((R1 & R2) & (P1 & P2) & (Y1 & Y2)).
  assert (Hc : forall x : Q, (-180 <= x)%Q -> (x <= 180)%Q ->
                             QwenView.clamp (x - 0)%Q = (x - 0)%Q).
  { intros x H1 H2. apply clamp_Q_inside.
    - setoid_replace (x - 0)%Q with x by ring. exact H1.
    - setoid_replace (x - 0)%Q with x by ring. exact H2. }
  rewrite !Hc by assumption.
  eexists. split; [reflexivity|]. unfold angles_Qeq. split; [|split]; ring.
Qed.

Lemma X20_limiter_idle_before_calibration_witness :
  exists (s' : Qwen.SensorData Q) a,
    Qwen_notifications Qwen.shared_data [known_frame] = Ok s' /\
    Qwen.new_data s' = true /\
    snd (QwenView.update_view s') = Some a /\
    angles_Qeq a (Qwen.roll s', Qwen.pitch s', Qwen.yaw s').
Proof.
  destruct (X20_limiter_idle_before_calibration [known_frame]) as (s' & E & _ & Hv).
  assert (Hn : Qwen.new_data s' = true).
  { vm_compute in E. injection E as <-. reflexivity. }
  destruct (Hv Hn) as (a & Ea & Ha).
  exists s', a. repeat split; assumption.
Defined.

(** ** The axis configuration of [arena.py] *)

(** X21.  With the [AXIS_CONFIG] of the source, the timer tick of
    [arena.py] (and of [arena_alter_claude_opus.py]) hands the angles it
    read to [RotateZ], [RotateX], [RotateY] as (minus yaw, pitch, roll): in
    binary64 the multiplications by [1.0] and [-1.0] are exact for every
    value in canonical form, NaN and the infinities included, and over the
    rationals they are the identity and negation.  Without a new reading
    the tick hands on nothing. *)
Theorem X21_axis_configuration :
  (forall (s s' : SensorData spec_float) (r p y : spec_float),
      sample s = (s', Some (r, p, y)) ->
      canonical r -> canonical p -> canonical y ->
      update_view s = (s', Some (SFopp y, p, r)))
  /\ (forall (s s' : SensorData Q) (r p y : Q),
        sample s = (s', Some (r, p, y)) ->
        exists a, update_view s = (s', Some a) /\ angles_Qeq a (- y, p, r)%Q)
  /\ (forall (F : Type) (PF : PyFloat F) (s : SensorData F),
        new_data s = false -> update_view s = (s, None)).
Proof.
  split; [|split].
  - intros s s' r p y Hs Hr Hp Hy. unfold update_view. rewrite Hs.
    cbn [AXIS_CONFIG swap_xy roll_sign pitch_sign yaw_sign].
    change (@fmul spec_float PyFloat_b64) with B64.mul.
    change (@float_of_int spec_float PyFloat_b64) with B64.of_Z.
    rewrite (mul_one r Hr), (mul_one p Hp), (mul_minus_one y Hy). reflexivity.
  - intros s s' r p y Hs. unfold update_view. rewrite Hs.
    cbn [AXIS_CONFIG swap_xy roll_sign pitch_sign yaw_sign].
    eexists. split; [reflexivity|]. unfold angles_Qeq.
    change (@fmul Q PyFloat_Q) with Qmult.
    change (@float_of_int Q PyFloat_Q 1) with 1%Q.
    change (@float_of_int Q PyFloat_Q (-1)) with (-1)%Q.
    split; [|split]; ring.
  - intros F PF s Hn. unfold update_view, sample. rewrite Hn. reflexivity.
Qed.

Lemma X21_axis_configuration_witness :
  let s := update (init (F:=spec_float)) (B64.of_Z 90) (B64.of_Z 0) (B64.of_Z (-90)) in
  exists s' r p y,
    sample s = (s', Some (r, p, y)) /\
    update_view s = (s', Some (SFopp y, p, r)).
Proof.
  intros s.
  destruct (sample s) as [s' [[[r p] y]|]] eqn:Hs; [|vm_compute in Hs; discriminate].
  exists s', r, p, y. split; [reflexivity|].
  apply (proj1 X21_axis_configuration s s' r p y Hs);
    vm_compute in Hs; injection Hs as _ <- <- <-; vm_compute; repeat split; discriminate.
Defined.

(** ** The connection loop *)

Lemma run_bluetooth_closed (outcomes : list Retry.pass) (st : Retry.state) :
  Retry.retry_count st <= 3 -> Retry.connected st = false ->
  Retry.pauses st = Nat.min (Retry.retry_count st) 2 ->
  let n := Retry.retry_count st + Retry.failures outcomes in
  Retry.run_bluetooth st outcomes =
  (Retry.mkState (Nat.min n 3) false (Nat.min n 2), 3 <=? n).
Proof.
  revert st. induction outcomes as [|a rest IH]; intros [rc c ps] Hrc Hc Hps n;
    simpl in Hrc, Hc, Hps; subst c ps n.
  - unfold Retry.failures. cbn [Retry.run_bluetooth Retry.retry_count filter length].
    rewrite Nat.add_0_r. unfold Retry.max_retries.
    replace (Nat.min rc 3) with rc by lia.
    f_equal. destruct (Nat.ltb_spec rc 3), (Nat.leb_spec 3 rc); try reflexivity; lia.
  - cbn [Retry.run_bluetooth Retry.retry_count]. unfold Retry.max_retries.
    destruct (Nat.ltb_spec rc 3) as [Hlt|Hge].
    + unfold Retry.one_pass, Retry.failures. cbn [filter Retry.retry_count Retry.pauses].
      destruct (Retry.raised a); cbn [length].
      * unfold Retry.max_retries.
        rewrite IH; cbn [Retry.retry_count Retry.connected Retry.pauses];
          try lia; try reflexivity.
        -- unfold Retry.failures.
           replace (S rc + length (filter Retry.raised rest))
             with (rc + S (length (filter Retry.raised rest))) by lia.
           reflexivity.
        -- destruct (Nat.ltb_spec (S rc) 3); lia.
      * rewrite IH; cbn [Retry.retry_count Retry.connected Retry.pauses];
          try lia; reflexivity.
    + assert (rc = 3) by lia. subst rc.
      set (k := Retry.failures (a :: rest)).
      replace (Nat.min (3 + k) 3) with 3 by lia.
      replace (Nat.min (3 + k) 2) with 2 by lia.
      replace (3 <=? 3 + k) with true by (symmetry; apply Nat.leb_le; lia).
      reflexivity.
Qed.

(** X22.  The connection loop of [arena_alter_claude_opus.py] counts only
    exceptions.  Against any sequence of pass outcomes it has returned
    exactly when three passes have ended with an exception; passes left on
    stale data or on a closed link are repeated without counting and
    without the two-second pause, however many there are.  At any moment
    [retry_count] is the number of exceptions so far (at most 3), the pause
    was made after the first and the second exception only, and
    [connected] is down after every pass. *)
Theorem X22_retry_counts_exceptions_only :
  forall outcomes : list Retry.pass,
    let n := Retry.failures outcomes in
    Retry.run_bluetooth Retry.init outcomes =
    (Retry.mkState (Nat.min n 3) false (Nat.min n 2), 3 <=? n).
Proof.
  intros outcomes. apply (run_bluetooth_closed outcomes Retry.init); simpl; auto.
Qed.
